(** * Surfingkeys config service: the secret-retrieval server

    A shallow embedding of the server package of the repository
    (packages/server/src): the credential gateway [getSecret]
    (lib/proton-pass.ts), the route handler [handleGetSecret]
    (routes/secrets.ts) and the entry point (index.ts) with
    [authenticateProtonPass], [getConfigPath], [startServer] and the
    [fetch] dispatcher.

    JavaScript values are an inductive type, the effects of the code
    (environment lookups, console output, subprocesses, thrown values,
    process exit) are threaded through a small state-and-completion monad. *)

From Stdlib Require Import Ascii ZArith Bool.
From stdpp Require Import base option list gmap strings pretty.

Local Open Scope Z_scope.

(** ** Strings

    A JavaScript string is modelled by the bytes of its UTF-8 encoding;
    every operation the server performs on strings (comparison with an
    ASCII literal, [startsWith], splitting at the slash, concatenation)
    commutes with that encoding. *)

Module Str.

Definition is_empty (s : string) : bool :=
  match s with EmptyString => true | String _ _ => false end.

(** [s.startsWith(p)] *)
Fixpoint startsWith (s p : string) : bool :=
  match p, s with
  | EmptyString, _ => true
  | String _ _, EmptyString => false
  | String a p', String b s' => Ascii.eqb a b && startsWith s' p'
  end.

(** [s.split(sep)] for a one-character separator: the pieces between
    the occurrences of [sep], in order; never the empty array. *)
Fixpoint split (sep : ascii) (s : string) : list string :=
  match s with
  | EmptyString => [EmptyString]
  | String c s' =>
      if Ascii.eqb c sep then EmptyString :: split sep s'
      else match split sep s' with
           | [] => [String c EmptyString]
           | piece :: pieces => String c piece :: pieces
           end
  end.

(** [a.pop()]: the final element, [undefined] on the empty array.
    Only the returned element is modelled, the array is not used again. *)
Fixpoint pop (a : list string) : option string :=
  match a with
  | [] => None
  | [x] => Some x
  | _ :: rest => pop rest
  end.

(** No occurrence of [c] in [s]. *)
Fixpoint free_of (c : ascii) (s : string) : bool :=
  match s with
  | EmptyString => true
  | String d s' => negb (Ascii.eqb d c) && free_of c s'
  end.

Definition slash : ascii := "/"%char.
Definition dquote : ascii := "034"%char.
Definition backslash : ascii := "\"%char.

End Str.

(** ** JavaScript values *)

(** Numbers are the doubles of the runtime; the server only tests them
    for truthiness and serialises them. [number_truthy] is [false]
    exactly on [+0], [-0] and [NaN]; [number_to_json] is the text
    [JSON.stringify] gives a number. *)
Class Numbers := {
  number : Type;
  number_truthy : number -> bool;
  number_to_json : number -> string
}.

Section Values.

Context {num : Numbers}.

#[local] Set Warnings "-register-all".

Inductive Value : Type :=
| VUndefined
| VNull
| VBool (b : bool)
| VNumber (n : number)
| VString (s : string)
| VArray (items : list Value)
  (** own enumerable properties, in enumeration order *)
| VObject (fields : list (string * Value))
  (** a built-in function object, named by the property that holds it *)
| VFunction (fname : string)
  (** the object every object literal inherits from *)
| VObjectPrototype.

(** ToBoolean *)
Definition truthy (v : Value) : bool :=
  match v with
  | VUndefined | VNull => false
  | VBool b => b
  | VNumber n => number_truthy n
  | VString s => negb (Str.is_empty s)
  | VArray _ | VObject _ | VFunction _ | VObjectPrototype => true
  end.

(** [a || b] *)
Definition or_else (a b : Value) : Value := if truthy a then a else b.

Definition nullish (v : Value) : bool :=
  match v with VUndefined | VNull => true | _ => false end.


(** ** JSON serialisation

    [JSON.stringify] on the values above. Control characters, the double
    quote and the backslash are escaped; all other bytes are copied. *)

Definition hex_digit (n : N) : ascii :=
  match String.get (N.to_nat n) "0123456789abcdef" with
  | Some c => c
  | None => "0"%char
  end.

Definition escape_char (c : ascii) : string :=
  let n := N_of_ascii c in
  if Ascii.eqb c Str.dquote then String Str.backslash (String Str.dquote EmptyString)
  else if Ascii.eqb c Str.backslash then "\\"
  else if N.eqb n 8 then "\b"
  else if N.eqb n 9 then "\t"
  else if N.eqb n 10 then "\n"
  else if N.eqb n 12 then "\f"
  else if N.eqb n 13 then "\r"
  else if N.ltb n 32 then
    "\u00" +:+ String (hex_digit (N.div n 16)) (String (hex_digit (N.modulo n 16)) EmptyString)
  else String c EmptyString.

Fixpoint escape (s : string) : string :=
  match s with
  | EmptyString => EmptyString
  | String c s' => escape_char c +:+ escape s'
  end.

(** QuoteJSONString *)
Definition quote (s : string) : string :=
  String Str.dquote (escape s +:+ String Str.dquote EmptyString).

(** [s] between double quotes, as it stands. *)
Definition in_quotes (s : string) : string :=
  String Str.dquote (s +:+ String Str.dquote EmptyString).

(** The grammar of a JSON string literal (RFC 8259, section 7): between
    double quotes, bytes from 0x20 on other than the quote and the
    backslash, and the escapes. *)
Definition is_hex (c : ascii) : bool :=
  let n := N_of_ascii c in
  (N.leb 48 n && N.leb n 57) || (N.leb 65 n && N.leb n 70) || (N.leb 97 n && N.leb n 102).

Definition is_simple_escape (c : ascii) : bool :=
  Ascii.eqb c Str.dquote || Ascii.eqb c Str.backslash || Ascii.eqb c "/"
  || Ascii.eqb c "b" || Ascii.eqb c "f" || Ascii.eqb c "n" || Ascii.eqb c "r"
  || Ascii.eqb c "t".

Fixpoint json_string_rest (s : string) : bool :=
  match s with
  | EmptyString => false
  | String c rest =>
      if Ascii.eqb c Str.dquote then Str.is_empty rest
      else if Ascii.eqb c Str.backslash then
        match rest with
        | EmptyString => false
        | String e rest' =>
            if is_simple_escape e then json_string_rest rest'
            else if Ascii.eqb e "u" then
              match rest' with
              | String h1 (String h2 (String h3 (String h4 rest''))) =>
                  is_hex h1 && is_hex h2 && is_hex h3 && is_hex h4
                  && json_string_rest rest''
              | _ => false
              end
            else false
        end
      else if N.ltb (N_of_ascii c) 32 then false
      else json_string_rest rest
  end.

Definition json_string_literal (s : string) : bool :=
  match s with
  | EmptyString => false
  | String c rest => Ascii.eqb c Str.dquote && json_string_rest rest
  end.

Fixpoint join (sep : string) (pieces : list string) : string :=
  match pieces with
  | [] => EmptyString
  | [x] => x
  | x :: rest => x +:+ sep +:+ join sep rest
  end.

(** [JSON.stringify(v)]; [None] is the result [undefined]. A property
    whose value serialises to [undefined] is left out of its object, an
    array element of that kind is written [null]. *)
Fixpoint JSON_stringify (v : Value) : option string :=
  match v with
  | VUndefined | VFunction _ => None
  | VNull => Some "null"
  | VBool b => Some (if b then "true" else "false")
  | VNumber n => Some (number_to_json n)
  | VString s => Some (quote s)
  | VArray items =>
      Some ("[" +:+ join "," (map (fun x => default "null" (JSON_stringify x)) items) +:+ "]")
  | VObject fields =>
      Some ("{" +:+ join ","
              (omap (fun kx => (fun t => quote (fst kx) +:+ ":" +:+ t) <$> JSON_stringify (snd kx))
                 fields) +:+ "}")
  | VObjectPrototype => Some "{}"
  end.

(** Serialisation of an object literal, which is never [undefined]. *)
Definition stringify_object (fields : list (string * Value)) : string :=
  default EmptyString (JSON_stringify (VObject fields)).

(** ** Property access *)

(** The property names the gateway reads off the tool's output. *)
Inductive Field := data | content | itemData | password | text.

Definition field_name (f : Field) : string :=
  match f with
  | data => "data"
  | content => "content"
  | itemData => "itemData"
  | password => "password"
  | text => "text"
  end.

(** The function-valued properties of the built-in object prototype. *)
Definition object_prototype_methods : list string :=
  [ "constructor"; "hasOwnProperty"; "isPrototypeOf"; "propertyIsEnumerable";
    "toLocaleString"; "toString"; "valueOf";
    "__defineGetter__"; "__defineSetter__"; "__lookupGetter__"; "__lookupSetter__" ].

(** What an object made by an object literal (or by [JSON.parse]) yields
    for a key it has no own property for: the lookup continues in the
    built-in object prototype, whose [__proto__] accessor answers with
    the prototype of the receiver, that is the object prototype itself. *)
Definition inherited (key : string) : Value :=
  if bool_decide (key ∈ object_prototype_methods) then VFunction key
  else if String.eqb key "__proto__" then VObjectPrototype
  else VUndefined.

(** Own property of an object; the keys of an object are pairwise
    distinct. *)
Fixpoint own_property (fields : list (string * Value)) (key : string) : option Value :=
  match fields with
  | [] => None
  | (k, x) :: rest => if String.eqb k key then Some x else own_property rest key
  end.

(** [o[key]] for a [Record<string, string>] written as an object literal. *)
Definition record_get (o : gmap string string) (key : string) : Value :=
  match o !! key with
  | Some s => VString s
  | None => inherited key
  end.

(** [v.f] for a value [v] that is neither [null] nor [undefined] and one
    of the five fields: no built-in prototype of a primitive, an array or
    a function defines any of them. *)
Definition get_field (v : Value) (f : Field) : Value :=
  match v with
  | VObject fields =>
      match own_property fields (field_name f) with
      | Some x => x
      | None => inherited (field_name f)
      end
  | _ => VUndefined
  end.

(** [v?.f] *)
Definition get_field_opt (v : Value) (f : Field) : Value :=
  if nullish v then VUndefined else get_field v f.

(** ** Effects *)

Record ErrorObject := { err_name : string; err_message : string }.

(** What a [throw] (or a rejected promise) carries: an instance of
    [Error] or any other value. *)
Inductive Thrown :=
| ThrowError (e : ErrorObject)
| ThrowOther (v : Value).

(** The two invocations of the credential tool. *)
Inductive Command :=
| PassCliLogin (email : option string)
| PassCliItemGet (name : string).

Inductive LogLine :=
| ConsoleLog (line : string)
| ConsoleError (line : string) (error : Thrown).

(** The argument of [serve]; [serve_bundle] is the [configPath] the
    [fetch] closure captures. *)
Record ServeOptions := {
  serve_port : number;
  serve_hostname : string;
  serve_bundle : string
}.

Record World := {
  env : gmap string string;
  console : list LogLine;
  spawned : list Command;
  listening : option ServeOptions
}.

Inductive Completion (A : Type) :=
| Normal (a : A)
| Throws (t : Thrown)
| Exits (code : Z).

Arguments Normal {A} a.
Arguments Throws {A} t.
Arguments Exits {A} code.

Definition Eff (A : Type) : Type := World -> Completion A * World.

#[export] Instance Eff_ret : MRet Eff := fun A a w => (Normal a, w).

#[export] Instance Eff_bind : MBind Eff := fun A B k m w =>
  match m w with
  | (Normal a, w') => k a w'
  | (Throws t, w') => (Throws t, w')
  | (Exits c, w') => (Exits c, w')
  end.

Definition throw {A} (t : Thrown) : Eff A := fun w => (Throws t, w).

(** [try { body } catch (error) { handler }] *)
Definition try_catch {A} (body : Eff A) (handler : Thrown -> Eff A) : Eff A := fun w =>
  match body w with
  | (Throws t, w') => handler t w'
  | r => r
  end.

(** [process.exit(code)] *)
Definition process_exit {A} (code : Z) : Eff A := fun w => (Exits code, w).

(** [process.env.NAME] *)
Definition getenv (name : string) : Eff (option string) := fun w =>
  (Normal (env w !! name), w).

Definition add_log (l : LogLine) (w : World) : World :=
  {| env := env w; console := console w ++ [l];
     spawned := spawned w; listening := listening w |}.

Definition add_spawned (cmd : Command) (w : World) : World :=
  {| env := env w; console := console w;
     spawned := spawned w ++ [cmd]; listening := listening w |}.

Definition console_log (line : string) : Eff unit := fun w =>
  (Normal tt, add_log (ConsoleLog line) w).

Definition console_error (line : string) (error : Thrown) : Eff unit := fun w =>
  (Normal tt, add_log (ConsoleError line error) w).

End Values.

Arguments Normal {num A} a.
Arguments Throws {num A} t.
Arguments Exits {num A} code.

(** ** The host

    What the server takes from its surroundings.
    - [pass_cli]: the credential tool, what an invocation gives after the
      invocations made so far. [inr v]: exit status zero, [v] is the
      parsed output (of use only for the item lookup); [inl t]: the shell
      call rejects with [t] (non-zero exit status, output that does not
      parse).
    - [nullish_read_message]: the message of the [TypeError] the engine
      raises when a property is read off [null] or [undefined].
    - [existsSync], [import_meta_dir], [resolve]: the file system as
      [existsSync] sees it, the directory of the module and
      [path.resolve].
    - [bun_serve]: the runtime's [serve]; it throws, or the server listens
      and reports its address, the text of
      [${server.hostname}:${server.port}]. *)
Class Host {num : Numbers} := {
  pass_cli : list Command -> Command -> Thrown + Value;
  nullish_read_message : Value -> Field -> string;
  existsSync : string -> bool;
  import_meta_dir : string;
  resolve : string -> string -> string;
  parseInt : string -> number;
  bun_serve : ServeOptions -> Thrown + string
}.

Section Server.

Context {num : Numbers} {host : Host}.

(** A shell call [$`pass-cli ...`]: one subprocess per call. *)
Definition shell (cmd : Command) : Eff Value := fun w =>
  match pass_cli (spawned w) cmd with
  | inr v => (Normal v, add_spawned cmd w)
  | inl t => (Throws t, add_spawned cmd w)
  end.

(** ** lib/proton-pass.ts *)

(** [v.f], which throws on [null] and [undefined]. *)
Definition get_field_strict (v : Value) (f : Field) : Eff Value :=
  if nullish v then
    throw (ThrowError {| err_name := "TypeError"; err_message := nullish_read_message v f |})
  else mret (get_field v f).

Definition mockSecrets : gmap string string :=
  {[ "openrouter-api-key" := "test-api-key-12345";
     "test-secret" := "test-value" ]}.

(** [new Error(`Secret '${name}' not found in Proton Pass`)] *)
Definition SecretNotFound (name : string) : Thrown :=
  ThrowError {| err_name := "Error";
                err_message := "Secret '" +:+ name +:+ "' not found in Proton Pass" |}.

Definition test_mode (w : World) : bool :=
  bool_decide (env w !! "TEST_MODE" = Some "true").

Definition getSecret (name : string) : Eff Value :=
  mode ← getenv "TEST_MODE";
  if bool_decide (mode = Some "true") then
    mret (or_else (record_get mockSecrets name) (VString EmptyString))
  else
    result ← shell (PassCliItemGet name);
    d ← get_field_strict result data;
    let item := get_field_opt (get_field_opt d content) itemData in
    if negb (truthy item) then throw (SecretNotFound name)
    else
      mret (or_else (get_field item password)
              (or_else (get_field item text) (VString EmptyString))).

(** ** routes/secrets.ts *)

(** How a body was given to the [Response] constructor: serialised by
    [Response.json], a string, or a file handle. *)
Inductive Body :=
| JsonText (s : string)
| PlainText (s : string)
| FileBody (path : string).

(** [headers] are the headers of the init argument. *)
Record Response := {
  status : Z;
  headers : list (string * string);
  body : Body
}.

(** [Response.json({ ...fields }, { status })] *)
Definition Response_json (fields : list (string * Value)) (st : Z) : Response :=
  {| status := st; headers := []; body := JsonText (stringify_object fields) |}.

(** [error instanceof Error ? error.message : 'Unknown error'] *)
Definition error_text (error : Thrown) : string :=
  match error with
  | ThrowError e => err_message e
  | ThrowOther _ => "Unknown error"
  end.

Section Routes.

(** The import [getSecret as getSecretFromProtonPass]. *)
Variable getSecretFromProtonPass : string -> Eff Value.

Definition handleGetSecret (name : option string) : Eff Response :=
  match name with
  | None => mret (Response_json [("error", VString "Secret name is required")] 400)
  | Some n =>
      if Str.is_empty n then
        mret (Response_json [("error", VString "Secret name is required")] 400)
      else
        try_catch
          (value ← getSecretFromProtonPass n;
           mret (Response_json [("value", value)] 200))
          (fun error =>
             console_error ("Error fetching secret '" +:+ n +:+ "':") error;;
             mret (Response_json [("error", VString (error_text error))] 500))
  end.

End Routes.

(** ** index.ts *)

Definition authenticateProtonPass : Eff unit :=
  mode ← getenv "TEST_MODE";
  if bool_decide (mode = Some "true") then
    console_log "Test mode: Skipping Proton Pass authentication"
  else
    try_catch
      (email ← getenv "PROTON_EMAIL";
       shell (PassCliLogin email);;
       console_log "Authenticated with Proton Pass")
      (fun error =>
         console_error "Failed to authenticate with Proton Pass:" error;;
         process_exit 1).

Definition getConfigPath : string :=
  let dockerPath := "/app/static/config.js" in
  let localPath := resolve import_meta_dir "../../config/dist/bundle.js" in
  if existsSync dockerPath then dockerPath else localPath.

(** The [fetch] handler given to [serve]; [pathname] is [url.pathname] of
    the request. *)
Definition fetch (configPath : string) (pathname : string) : Eff Response :=
  if String.eqb pathname "/config.js" then
    mret {| status := 200;
            headers := [("Content-Type", "application/javascript")];
            body := FileBody configPath |}
  else if Str.startsWith pathname "/api/secrets/" then
    let name := Str.pop (Str.split Str.slash pathname) in
    handleGetSecret getSecret name
  else
    mret {| status := 404; headers := []; body := PlainText "Not Found" |}.

(** [process.env.NAME || fallback] *)
Definition env_or (name fallback : string) : Eff string :=
  v ← getenv name;
  mret (match v with
        | Some s => if Str.is_empty s then fallback else s
        | None => fallback
        end).

Definition serve (options : ServeOptions) : Eff string := fun w =>
  match bun_serve options with
  | inl t => (Throws t, w)
  | inr address =>
      (Normal address,
       {| env := env w; console := console w; spawned := spawned w;
          listening := Some options |})
  end.

Definition startServer : Eff unit :=
  authenticateProtonPass;;
  let configPath := getConfigPath in
  console_log ("Serving config from: " +:+ configPath);;
  p ← env_or "SERVER_PORT" "16080";
  h ← env_or "SERVER_HOST" "127.0.0.1";
  address ← serve {| serve_port := parseInt p; serve_hostname := h;
                     serve_bundle := configPath |};
  console_log ("Server running at http://" +:+ address);;
  console_log ("Config available at http://" +:+ address +:+ "/config.js").

(** ** The process

    The module runs [startServer]; requests reach [fetch] only while the
    server listens. *)

Fixpoint serve_requests (pathnames : list string) (w : World) : list Response * World :=
  match pathnames with
  | [] => ([], w)
  | pathname :: rest =>
      match listening w with
      | None => ([], w)
      | Some options =>
          match fetch (serve_bundle options) pathname w with
          | (Normal r, w') =>
              let (rs, w'') := serve_requests rest w' in (r :: rs, w'')
          | (_, w') => ([], w')
          end
      end
  end.

Definition run_process (pathnames : list string) (w : World) : list Response * World :=
  match startServer w with
  | (Normal _, w') => serve_requests pathnames w'
  | (_, w') => ([], w')
  end.

End Server.

(** ** A concrete host

    Integers stand for the numbers; the credential tool knows three
    items and one account. *)

Module Example.

Definition numbers : Numbers :=
  {| number := Z;
     number_truthy := fun z => negb (Z.eqb z 0);
     number_to_json := fun z => pretty z |}.

#[local] Existing Instance numbers.

Definition item (fields : list (string * Value)) : Value :=
  VObject [("data", VObject [("content", VObject [("itemData", VObject fields)])])].

(** An item whose payload has neither a password nor a text. *)
Definition bare_item : Value := item [].

Definition login_item : Value :=
  item [("username", VString "me"); ("password", VString "hunter2")].

(** Output without a payload. *)
Definition no_item : Value := VObject [("data", VNull)].

Definition shell_error : Thrown :=
  ThrowError {| err_name := "ShellError"; err_message := "Failed with exit code 1" |}.

Definition tool (history : list Command) (cmd : Command) : Thrown + Value :=
  match cmd with
  | PassCliItemGet name =>
      if String.eqb name "X" then inr bare_item
      else if String.eqb name "github" then inr login_item
      else if String.eqb name "nothing" then inr no_item
      else inl shell_error
  | PassCliLogin email =>
      if bool_decide (email = Some "me@example.org") then inr VUndefined
      else inl shell_error
  end.

Definition host : Host :=
  {| pass_cli := tool;
     nullish_read_message := fun _ f => "null is not an object (evaluating 'result." +:+ field_name f +:+ "')";
     existsSync := fun _ => false;
     import_meta_dir := "/srv/packages/server/src";
     resolve := fun dir rel => dir +:+ "/" +:+ rel;
     parseInt := fun _ => 16080;
     bun_serve := fun options => inr (serve_hostname options +:+ ":16080") |}.

#[local] Existing Instance host.

Definition world (vars : gmap string string) : World :=
  {| env := vars; console := []; spawned := []; listening := None |}.

(** [TEST_MODE=true] *)
Definition test_world : World := world {[ "TEST_MODE" := "true" ]}.

(** No test mode, an account the tool accepts. *)
Definition live_world : World := world {[ "PROTON_EMAIL" := "me@example.org" ]}.

(** No test mode, no account. *)
Definition anonymous_world : World := world ∅.

(** A gateway that throws a value that is no [Error]. *)
Definition throwing_gateway (name : string) : Eff Value :=
  throw (ThrowOther (VString name)).

End Example.

(** ** A second concrete host

    The container: the bundle is at its place, every login passes, and
    the tool gives a note without a password and output that is no
    item. *)

Module Container.

#[local] Existing Instance Example.numbers.

Definition note_item : Value :=
  Example.item [("password", VString EmptyString); ("text", VString "remember the milk")].

Definition tool (history : list Command) (cmd : Command) : Thrown + Value :=
  match cmd with
  | PassCliItemGet name =>
      if String.eqb name "note" then inr note_item
      else if String.eqb name "null" then inr VNull
      else if String.eqb name "plain" then inr (VString "no such item")
      else inl Example.shell_error
  | PassCliLogin _ => inr VUndefined
  end.

Definition host : Host :=
  {| pass_cli := tool;
     nullish_read_message := fun _ f => "null is not an object (evaluating 'result." +:+ field_name f +:+ "')";
     existsSync := fun path => String.eqb path "/app/static/config.js";
     import_meta_dir := "/app/packages/server/src";
     resolve := fun dir rel => dir +:+ "/" +:+ rel;
     parseInt := fun _ => 16080;
     bun_serve := fun options => inr (serve_hostname options +:+ ":16080") |}.

(** The server listens. *)
Definition serving_world : World :=
  {| env := ∅; console := []; spawned := [];
     listening := Some {| serve_port := 16080; serve_hostname := "127.0.0.1";
                          serve_bundle := "/app/static/config.js" |} |}.

(** [TEST_MODE=TRUE] *)
Definition shouting_world : World := Example.world {[ "TEST_MODE" := "TRUE" ]}.

End Container.

(** ** The values of the tool

    What [JSON.parse] can give: no [undefined], no function, no built-in
    object, at any depth. *)

Section Json.

Context {num : Numbers}.

Fixpoint is_json (v : Value) : bool :=
  match v with
  | VUndefined | VFunction _ | VObjectPrototype => false
  | VNull | VBool _ | VNumber _ | VString _ => true
  | VArray items => forallb is_json items
  | VObject fields => forallb (fun kx => is_json (snd kx)) fields
  end.

End Json.

(** ** The earlier index.ts

    The entry point as it was before [getConfigPath]: the same dispatcher
    with the bundle path of the container written out. *)

Section Earlier.

Context {num : Numbers} {host : Host}.

Definition fetch_static (pathname : string) : Eff Response :=
  if String.eqb pathname "/config.js" then
    mret {| status := 200;
            headers := [("Content-Type", "application/javascript")];
            body := FileBody "/app/static/config.js" |}
  else if Str.startsWith pathname "/api/secrets/" then
    let name := Str.pop (Str.split Str.slash pathname) in
    handleGetSecret getSecret name
  else
    mret {| status := 404; headers := []; body := PlainText "Not Found" |}.

End Earlier.

(** ** packages/config: llm/openrouter.ts

    The side of the page: the object [settings.llm] and the console. *)

Module Config.

Section Config.

Context {num : Numbers}.

(** [settings_llm] holds the own properties of [settings.llm], or [None]
    when [settings.llm] cannot take a property. *)
Record Browser := {
  settings_llm : option (list (string * Value));
  browser_console : list LogLine
}.

Definition Cfg (A : Type) : Type := Browser -> Completion A * Browser.

#[export] Instance Cfg_ret : MRet Cfg := fun A a b => (Normal a, b).

#[export] Instance Cfg_bind : MBind Cfg := fun A B k m b =>
  match m b with
  | (Normal a, b') => k a b'
  | (Throws t, b') => (Throws t, b')
  | (Exits c, b') => (Exits c, b')
  end.

Definition try_catch {A} (body : Cfg A) (handler : Thrown -> Cfg A) : Cfg A := fun b =>
  match body b with
  | (Throws t, b') => handler t b'
  | r => r
  end.

Definition console_log (line : string) : Cfg unit := fun b =>
  (Normal tt,
   {| settings_llm := settings_llm b;
      browser_console := browser_console b ++ [ConsoleLog line] |}).

Definition console_error (line : string) (error : Thrown) : Cfg unit := fun b =>
  (Normal tt,
   {| settings_llm := settings_llm b;
      browser_console := browser_console b ++ [ConsoleError line error] |}).

(** [o[key] = v] on the own properties of [o]: an existing property keeps
    its place, a new one comes last. *)
Fixpoint set_property (fields : list (string * Value)) (key : string) (v : Value)
  : list (string * Value) :=
  match fields with
  | [] => [(key, v)]
  | (k, x) :: rest =>
      if String.eqb k key then (k, v) :: rest
      else (k, x) :: set_property rest key v
  end.

(** What the engine throws when [settings.llm] cannot take a property. *)
Variable assignment_error : Thrown.

(** [settings.llm.custom = v] *)
Definition assign_llm_custom (v : Value) : Cfg unit := fun b =>
  match settings_llm b with
  | None => (Throws assignment_error, b)
  | Some fields =>
      (Normal tt,
       {| settings_llm := Some (set_property fields "custom" v);
          browser_console := browser_console b |})
  end.

(** The import [getSecret] of lib/server-client. *)
Variable getSecret : string -> Cfg Value.

Definition DEFAULT_MODEL : string := "anthropic/claude-3.5-sonnet".

Definition setupLLM : Cfg unit :=
  try_catch
    (apiKey ← getSecret "openrouter-api-key";
     assign_llm_custom
       (VObject [ ("serviceUrl", VString "https://api.openrouter.ai/api/v1/chat/completions");
                  ("apiKey", apiKey);
                  ("model", VString DEFAULT_MODEL) ]);;
     console_log "LLM configured successfully")
    (fun error => console_error "Failed to setup LLM:" error).

End Config.

End Config.

(** ** A concrete page *)

Module Page.

#[local] Existing Instance Example.numbers.

(** [settings.llm] with one property. *)
Definition page : Config.Browser :=
  {| Config.settings_llm := Some [("provider", VString "custom")];
     Config.browser_console := [] |}.

(** The server cannot be reached. *)
Definition failing_lookup (name : string) : Config.Cfg Value := fun b =>
  (Throws Example.shell_error, b).

(** The server answers with the empty value. *)
Definition empty_lookup (name : string) : Config.Cfg Value := fun b =>
  (Normal (VString EmptyString), b).

End Page.

(** ** A host whose tool changes its answer

    The first lookup gives the old password, every later one the new. *)

Module Rotation.

#[local] Existing Instance Example.numbers.

Definition tool (history : list Command) (cmd : Command) : Thrown + Value :=
  match cmd with
  | PassCliItemGet name =>
      match history with
      | [] => inr (Example.item [("password", VString "old")])
      | _ :: _ => inr (Example.item [("password", VString "new")])
      end
  | PassCliLogin _ => inr VUndefined
  end.

Definition host : Host :=
  {| pass_cli := tool;
     nullish_read_message := fun _ f => "null is not an object (evaluating 'result." +:+ field_name f +:+ "')";
     existsSync := fun _ => false;
     import_meta_dir := "/srv/packages/server/src";
     resolve := fun dir rel => dir +:+ "/" +:+ rel;
     parseInt := fun _ => 16080;
     bun_serve := fun options => inr (serve_hostname options +:+ ":16080") |}.

End Rotation.

(** * Properties *)

Section Properties.

Context {num : Numbers} {host : Host}.

(** ** The credential gateway in test mode *)

Lemma mockSecrets_lookup (name : string) :
  mockSecrets !! name =
    if decide (name = "openrouter-api-key") then Some "test-api-key-12345"
    else if decide (name = "test-secret") then Some "test-value"
    else None.
Proof.
  unfold mockSecrets.
  repeat case_decide; subst; simplify_map_eq; reflexivity.
Qed.

Lemma inherited_unknown (key : string) :
  key ∉ object_prototype_methods -> key ≠ "__proto__" -> inherited key = VUndefined.
Proof.
  intros Hm Hp. unfold inherited.
  rewrite bool_decide_eq_false_2 by exact Hm.
  destruct (String.eqb key "__proto__") eqn:E; [|reflexivity].
  apply String.eqb_eq in E. contradiction.
Qed.

(** In test mode the gateway reads the environment and the mock table,
    and nothing else: it returns, and the world is as it was. *)
Lemma getSecret_test_mode (name : string) (w : World) :
  test_mode w = true ->
  getSecret name w =
    (Normal (or_else (record_get mockSecrets name) (VString EmptyString)), w).
Proof.
  unfold test_mode, getSecret, getenv, mbind, Eff_bind, mret, Eff_ret.
  intros ->. reflexivity.
Qed.

(** Outside test mode the gateway runs the tool once and reads the
    payload off its output. *)
Lemma getSecret_live (name : string) (w : World) :
  test_mode w = false ->
  getSecret name w =
    (match pass_cli (spawned w) (PassCliItemGet name) with
     | inl t => Throws t
     | inr result =>
         if nullish result then
           Throws (ThrowError {| err_name := "TypeError";
                                 err_message := nullish_read_message result data |})
         else
           let item := get_field_opt (get_field_opt (get_field result data) content) itemData in
           if truthy item then
             Normal (or_else (get_field item password)
                       (or_else (get_field item text) (VString EmptyString)))
           else Throws (SecretNotFound name)
     end,
     add_spawned (PassCliItemGet name) w).
Proof.
  unfold test_mode, getSecret, getenv, shell, get_field_strict, throw.
  unfold mbind, Eff_bind, mret, Eff_ret.
  intros ->.
  destruct (pass_cli (spawned w) (PassCliItemGet name)) as [t|result]; [reflexivity|].
  destruct (nullish result); [reflexivity|].
  cbv zeta.
  destruct (truthy (get_field_opt (get_field_opt (get_field result data) content) itemData));
    reflexivity.
Qed.

(** The gateway never ends the process. *)
Lemma getSecret_no_exit (name : string) (w : World) :
  forall c w', getSecret name w <> (Exits c, w').
Proof.
  intros c w'. destruct (test_mode w) eqn:M.
  - rewrite getSecret_test_mode by exact M. discriminate.
  - rewrite getSecret_live by exact M.
    destruct (pass_cli (spawned w) (PassCliItemGet name)) as [t|result]; [discriminate|].
    destruct (nullish result); [discriminate|].
    cbv zeta.
    destruct (truthy (get_field_opt (get_field_opt (get_field result data) content) itemData));
      discriminate.
Qed.

(** ** The texts of the JSON bodies *)

Lemma Response_json_error (msg : string) (st : Z) :
  Response_json [("error", VString msg)] st =
    {| status := st; headers := [];
       body := JsonText ("{" +:+ in_quotes "error" +:+ ":" +:+ quote msg +:+ "}") |}.
Proof. reflexivity. Qed.

Lemma Response_json_value (s : string) (st : Z) :
  Response_json [("value", VString s)] st =
    {| status := st; headers := [];
       body := JsonText ("{" +:+ in_quotes "value" +:+ ":" +:+ quote s +:+ "}") |}.
Proof. reflexivity. Qed.

Lemma append_assoc (a b c : string) : (a +:+ b) +:+ c = a +:+ (b +:+ c).
Proof.
  induction a as [|x a IH]; [reflexivity|].
  change (String x ((a +:+ b) +:+ c) = String x (a +:+ (b +:+ c))).
  rewrite IH. reflexivity.
Qed.

(** One escaped character is one well-formed step of a string literal. *)
Lemma json_string_rest_escape_char (c : ascii) (rest : string) :
  json_string_rest (escape_char c +:+ rest) = json_string_rest rest.
Proof.
  destruct c as [b0 b1 b2 b3 b4 b5 b6 b7].
  destruct b0, b1, b2, b3, b4, b5, b6, b7; reflexivity.
Qed.

Lemma json_string_rest_escape (s : string) :
  json_string_rest (escape s +:+ String Str.dquote EmptyString) = true.
Proof.
  induction s as [|c s IH]; [reflexivity|].
  change (escape (String c s)) with (escape_char c +:+ escape s).
  rewrite append_assoc, json_string_rest_escape_char. exact IH.
Qed.

(** What [JSON.stringify] writes for a string is a JSON string literal. *)
Lemma quote_json_string_literal (s : string) : json_string_literal (quote s) = true.
Proof.
  unfold quote, json_string_literal.
  rewrite json_string_rest_escape. reflexivity.
Qed.

(** ** The route handler *)

Section Handler.

Variable gateway : string -> Eff Value.

Lemma handleGetSecret_success (name : string) (w w' : World) (v : Value) :
  Str.is_empty name = false ->
  gateway name w = (Normal v, w') ->
  handleGetSecret gateway (Some name) w = (Normal (Response_json [("value", v)] 200), w').
Proof.
  intros Hn Hg. unfold handleGetSecret. rewrite Hn.
  unfold try_catch, mbind, Eff_bind, mret, Eff_ret. rewrite Hg. reflexivity.
Qed.

Lemma handleGetSecret_failure (name : string) (w w' : World) (t : Thrown) :
  Str.is_empty name = false ->
  gateway name w = (Throws t, w') ->
  handleGetSecret gateway (Some name) w =
    (Normal (Response_json [("error", VString (error_text t))] 500),
     add_log (ConsoleError ("Error fetching secret '" +:+ name +:+ "':") t) w').
Proof.
  intros Hn Hg. unfold handleGetSecret. rewrite Hn.
  unfold try_catch, mbind, Eff_bind, mret, Eff_ret. rewrite Hg. reflexivity.
Qed.

End Handler.

(** With the gateway of the server the handler always completes with a
    response. *)
Lemma handleGetSecret_completes (name : string) (w : World) :
  Str.is_empty name = false ->
  exists r w', handleGetSecret getSecret (Some name) w = (Normal r, w') /\
               (status r = 200 \/ status r = 500).
Proof.
  intros Hn. destruct (getSecret name w) as [[v|t|c] w'] eqn:Hg.
  - eexists _, _. rewrite (handleGetSecret_success getSecret name w w' v Hn Hg).
    split; [reflexivity|]. left. reflexivity.
  - eexists _, _. rewrite (handleGetSecret_failure getSecret name w w' t Hn Hg).
    split; [reflexivity|]. right. reflexivity.
  - exfalso. exact (getSecret_no_exit name w c w' Hg).
Qed.

(** C3. For a non-empty name the handler answers 200 with the body
    [{value: v}] when the gateway returns [v] (for a string [s] the text
    is the object with the one member [value], the literal of [s]), and
    500 with the body [{error: message}] when the gateway throws, whatever
    it throws; the failure is logged and becomes a response. With the
    gateway of the server the handler always completes with a response,
    of status 200 or 500. *)
Theorem handleGetSecret_outcomes (gateway : string -> Eff Value) (name : string) (w : World) :
  Str.is_empty name = false ->
  (forall v w', gateway name w = (Normal v, w') ->
     handleGetSecret gateway (Some name) w =
       (Normal (Response_json [("value", v)] 200), w')) /\
  (forall s w', gateway name w = (Normal (VString s), w') ->
     handleGetSecret gateway (Some name) w =
       (Normal {| status := 200; headers := [];
                  body := JsonText ("{" +:+ in_quotes "value" +:+ ":" +:+ quote s +:+ "}") |},
        w')) /\
  (forall t w', gateway name w = (Throws t, w') ->
     handleGetSecret gateway (Some name) w =
       (Normal {| status := 500; headers := [];
                  body := JsonText ("{" +:+ in_quotes "error" +:+ ":"
                                      +:+ quote (error_text t) +:+ "}") |},
        add_log (ConsoleError ("Error fetching secret '" +:+ name +:+ "':") t) w')) /\
  (exists r w', handleGetSecret getSecret (Some name) w = (Normal r, w') /\
                (status r = 200 \/ status r = 500)).
Proof.
  intros Hn. repeat split.
  - intros v w' Hg. exact (handleGetSecret_success gateway name w w' v Hn Hg).
  - intros s w' Hg. rewrite (handleGetSecret_success gateway name w w' _ Hn Hg).
    rewrite Response_json_value. reflexivity.
  - intros t w' Hg. rewrite (handleGetSecret_failure gateway name w w' t Hn Hg).
    rewrite Response_json_error. reflexivity.
  - exact (handleGetSecret_completes name w Hn).
Qed.

(** C4. Without a name, or with the empty name, the handler answers 400
    with the body [{error: 'Secret name is required'}], whatever the
    gateway is and without any effect: the gateway is not called. *)
Theorem handleGetSecret_name_required (gateway : string -> Eff Value) (w : World) :
  let bad_request :=
    {| status := 400; headers := [];
       body := JsonText ("{" +:+ in_quotes "error" +:+ ":"
                           +:+ in_quotes "Secret name is required" +:+ "}") |} in
  handleGetSecret gateway None w = (Normal bad_request, w) /\
  handleGetSecret gateway (Some EmptyString) w = (Normal bad_request, w).
Proof. split; reflexivity. Qed.

(** C10. When the gateway throws, the body of the 500 response is the
    object with the one member [error]: the message of the thrown value
    when that is an instance of [Error], the text [Unknown error]
    otherwise; its value is written as a JSON string literal. *)
Theorem handleGetSecret_error_body
  (gateway : string -> Eff Value) (name : string) (w w' : World) (t : Thrown) :
  Str.is_empty name = false ->
  gateway name w = (Throws t, w') ->
  let message :=
    match t with
    | ThrowError e => err_message e
    | ThrowOther _ => "Unknown error"
    end in
  fst (handleGetSecret gateway (Some name) w) =
    Normal {| status := 500; headers := [];
              body := JsonText ("{" +:+ in_quotes "error" +:+ ":" +:+ quote message +:+ "}") |} /\
  json_string_literal (in_quotes "error") = true /\
  json_string_literal (quote message) = true.
Proof.
  intros Hn Hg message.
  rewrite (handleGetSecret_failure gateway name w w' t Hn Hg).
  rewrite Response_json_error. repeat split.
  apply quote_json_string_literal.
Qed.

(** ** The credential gateway *)

(** C1 (amended). Outside test mode, for a non-empty name and output of
    the tool that is not [null]: when the output has no
    payload (the [itemData] read off it is falsy), the gateway throws the
    error [Secret 'name' not found in Proton Pass] and the handler answers
    500 with that message, which is not empty; when the payload is there
    and has neither a password nor a text (each absent or falsy), the
    gateway returns the empty string and the handler answers 200 with the
    empty value. *)
Theorem getSecret_payload_without_fields (name : string) (w : World) (result : Value) :
  test_mode w = false ->
  Str.is_empty name = false ->
  pass_cli (spawned w) (PassCliItemGet name) = inr result ->
  nullish result = false ->
  let item := get_field_opt (get_field_opt (get_field result data) content) itemData in
  let w' := add_spawned (PassCliItemGet name) w in
  let message := "Secret '" +:+ name +:+ "' not found in Proton Pass" in
  (truthy item = false ->
     getSecret name w = (Throws (SecretNotFound name), w') /\
     Str.is_empty message = false /\
     handleGetSecret getSecret (Some name) w =
       (Normal {| status := 500; headers := [];
                  body := JsonText ("{" +:+ in_quotes "error" +:+ ":" +:+ quote message +:+ "}") |},
        add_log (ConsoleError ("Error fetching secret '" +:+ name +:+ "':")
                   (SecretNotFound name)) w')) /\
  (truthy item = true ->
   truthy (get_field item password) = false ->
   truthy (get_field item text) = false ->
     getSecret name w = (Normal (VString EmptyString), w') /\
     handleGetSecret getSecret (Some name) w =
       (Normal {| status := 200; headers := [];
                  body := JsonText ("{" +:+ in_quotes "value" +:+ ":"
                                      +:+ in_quotes EmptyString +:+ "}") |},
        w')).
Proof.
  intros Hmode Hname Htool Hres item w' message.
  assert (Hget : getSecret name w =
            (if truthy item then
               Normal (or_else (get_field item password)
                         (or_else (get_field item text) (VString EmptyString)))
             else Throws (SecretNotFound name), w')).
  { rewrite getSecret_live by exact Hmode. rewrite Htool, Hres. reflexivity. }
  split.
  - intros Hitem. rewrite Hitem in Hget. split; [exact Hget|]. split; [reflexivity|].
    rewrite (handleGetSecret_failure getSecret name w w' _ Hname Hget).
    rewrite Response_json_error. reflexivity.
  - intros Hitem Hpw Htx. rewrite Hitem in Hget.
    unfold or_else in Hget. rewrite Hpw, Htx in Hget.
    split; [exact Hget|].
    rewrite (handleGetSecret_success getSecret name w w' _ Hname Hget).
    reflexivity.
Qed.

(** C2 (amended). In test mode the gateway resolves a name against the
    fixed table with the two entries [openrouter-api-key] and
    [test-secret]; any other name that is not the name of a property of
    the built-in object prototype resolves to the empty string. *)
Theorem getSecret_test_mode_table (name : string) (w : World) :
  test_mode w = true ->
  name ∉ object_prototype_methods ->
  name ≠ "__proto__" ->
  getSecret name w =
    (Normal (VString (if decide (name = "openrouter-api-key") then "test-api-key-12345"
                      else if decide (name = "test-secret") then "test-value"
                      else EmptyString)),
     w).
Proof.
  intros Hmode Hm Hp. rewrite getSecret_test_mode by exact Hmode.
  unfold record_get. rewrite mockSecrets_lookup.
  repeat case_decide; try reflexivity.
  rewrite inherited_unknown by assumption. reflexivity.
Qed.

(** C7, at the name [constructor]. In test mode the gateway returns for
    it, as for every name; the table has no entry for it, and what is
    returned is the function the table inherits under that name, not the
    empty string. The handler answers 200 with an object without
    members. *)
Theorem getSecret_test_mode_constructor (w : World) :
  test_mode w = true ->
  mockSecrets !! "constructor" = None /\
  getSecret "constructor" w = (Normal (VFunction "constructor"), w) /\
  VFunction "constructor" <> VString EmptyString /\
  handleGetSecret getSecret (Some "constructor") w =
    (Normal {| status := 200; headers := []; body := JsonText "{}" |}, w).
Proof.
  intros Hmode.
  assert (Hget : getSecret "constructor" w = (Normal (VFunction "constructor"), w)).
  { rewrite getSecret_test_mode by exact Hmode. reflexivity. }
  split; [reflexivity|]. split; [exact Hget|]. split; [discriminate|].
  rewrite (handleGetSecret_success getSecret "constructor" w w _ eq_refl Hget).
  reflexivity.
Qed.

(** In test mode the gateway returns for every name and leaves the world
    as it was. *)
Lemma getSecret_test_mode_returns (name : string) (w : World) :
  test_mode w = true -> exists v, getSecret name w = (Normal v, w).
Proof.
  intros Hmode. eexists. apply getSecret_test_mode. exact Hmode.
Qed.

(** ** The dispatcher *)

Lemma split_free (sep : ascii) (s : string) :
  Str.free_of sep s = true -> Str.split sep s = [s].
Proof.
  induction s as [|c s IH]; [reflexivity|].
  cbn [Str.free_of Str.split]. intros H.
  apply andb_prop in H as [Hc Hs].
  apply negb_true_iff in Hc. rewrite Hc, (IH Hs). reflexivity.
Qed.

Lemma pop_cons (x : string) (l : list string) : l <> [] -> Str.pop (x :: l) = Str.pop l.
Proof. destruct l; [contradiction|reflexivity]. Qed.

(** The pieces of a string that has the separator: at least two, the
    final one is what follows the final separator. *)
Lemma split_app (sep : ascii) (pre tok : string) :
  Str.free_of sep tok = true ->
  exists first others,
    Str.split sep (pre +:+ String sep tok) = first :: others /\
    others <> [] /\ Str.pop others = Some tok.
Proof.
  intros Hfree. induction pre as [|c pre IH].
  - exists EmptyString, [tok].
    change (EmptyString +:+ String sep tok) with (String sep tok).
    cbn [Str.split]. rewrite Ascii.eqb_refl, (split_free sep tok Hfree).
    repeat split. discriminate.
  - destruct IH as (first & others & Hsplit & Hne & Hpop).
    change (String c pre +:+ String sep tok) with (String c (pre +:+ String sep tok)).
    cbn [Str.split]. rewrite Hsplit.
    destruct (Ascii.eqb c sep).
    + exists EmptyString, (first :: others). repeat split; [discriminate|].
      rewrite pop_cons by exact Hne. exact Hpop.
    + exists (String c first), others. repeat split; assumption.
Qed.

Lemma pop_split_app (sep : ascii) (pre tok : string) :
  Str.free_of sep tok = true ->
  Str.pop (Str.split sep (pre +:+ String sep tok)) = Some tok.
Proof.
  intros Hfree. destruct (split_app sep pre tok Hfree) as (first & others & -> & Hne & Hpop).
  rewrite pop_cons by exact Hne. exact Hpop.
Qed.

(** Every string with a slash ends in a slash and a piece without one. *)
Lemma final_token_exists (s : string) :
  Str.free_of Str.slash s = false ->
  exists pre tok, s = pre +:+ String Str.slash tok /\ Str.free_of Str.slash tok = true.
Proof.
  induction s as [|c s IH]; [discriminate|].
  cbn [Str.free_of]. intros H.
  destruct (Str.free_of Str.slash s) eqn:Hs.
  - rewrite andb_true_r in H. apply negb_false_iff, Ascii.eqb_eq in H. subst c.
    exists EmptyString, s. split; [reflexivity|exact Hs].
  - destruct (IH eq_refl) as (pre & tok & -> & Htok).
    exists (String c pre), tok. split; [reflexivity|exact Htok].
Qed.

Lemma startsWith_api_has_slash (pathname : string) :
  Str.startsWith pathname "/api/secrets/" = true ->
  Str.free_of Str.slash pathname = false.
Proof.
  destruct pathname as [|a rest]; [discriminate|].
  cbn [Str.startsWith Str.free_of]. intros H.
  apply andb_prop in H as [Ha _]. apply Ascii.eqb_eq in Ha. subst a. reflexivity.
Qed.

Lemma startsWith_api_not_config (pathname : string) :
  Str.startsWith pathname "/api/secrets/" = true ->
  String.eqb pathname "/config.js" = false.
Proof.
  destruct pathname as [|a [|b rest]]; cbn [Str.startsWith String.eqb]; intros H.
  - discriminate.
  - rewrite andb_false_r in H. discriminate.
  - apply andb_prop in H as [_ H]. apply andb_prop in H as [Hb _].
    apply Ascii.eqb_eq in Hb. subst b.
    destruct (Ascii.eqb a "/"); reflexivity.
Qed.

(** C5. A path with the prefix [/api/secrets/] ends in a slash followed
    by a piece without a slash; the dispatcher takes that piece, the
    final token, as the name and hands it to the handler. When the path
    ends in the slash the name is empty and the answer is the 400 of the
    handler. *)
Theorem fetch_secret_route (configPath pathname : string) (w : World) :
  Str.startsWith pathname "/api/secrets/" = true ->
  (exists pre tok,
     pathname = pre +:+ String Str.slash tok /\ Str.free_of Str.slash tok = true) /\
  (forall pre tok,
     pathname = pre +:+ String Str.slash tok -> Str.free_of Str.slash tok = true ->
     Str.pop (Str.split Str.slash pathname) = Some tok /\
     fetch configPath pathname w = handleGetSecret getSecret (Some tok) w /\
     (tok = EmptyString ->
      fetch configPath pathname w =
        (Normal {| status := 400; headers := [];
                   body := JsonText ("{" +:+ in_quotes "error" +:+ ":"
                                       +:+ in_quotes "Secret name is required" +:+ "}") |},
         w))).
Proof.
  intros Hpre. split.
  - apply final_token_exists, startsWith_api_has_slash, Hpre.
  - intros pre tok Hpath Hfree.
    assert (Hpop : Str.pop (Str.split Str.slash pathname) = Some tok).
    { rewrite Hpath. apply pop_split_app, Hfree. }
    assert (Hfetch : fetch configPath pathname w = handleGetSecret getSecret (Some tok) w).
    { unfold fetch. rewrite (startsWith_api_not_config pathname Hpre), Hpre.
      cbv zeta. rewrite Hpop. reflexivity. }
    split; [exact Hpop|]. split; [exact Hfetch|].
    intros ->. rewrite Hfetch. reflexivity.
Qed.

(** C6. A path that is not [/config.js] and has not the prefix
    [/api/secrets/] gets 404 with the plain body [Not Found]. *)
Theorem fetch_not_found (configPath pathname : string) (w : World) :
  pathname <> "/config.js" ->
  Str.startsWith pathname "/api/secrets/" = false ->
  fetch configPath pathname w =
    (Normal {| status := 404; headers := []; body := PlainText "Not Found" |}, w).
Proof.
  intros Hcfg Hpre. unfold fetch.
  apply String.eqb_neq in Hcfg. rewrite Hcfg, Hpre. reflexivity.
Qed.

(** Every request gets a response: no thrown value and no exit leaves
    the dispatcher. *)
Lemma fetch_completes (configPath pathname : string) (w : World) :
  exists r w', fetch configPath pathname w = (Normal r, w').
Proof.
  unfold fetch.
  destruct (String.eqb pathname "/config.js"); [eexists _, _; reflexivity|].
  destruct (Str.startsWith pathname "/api/secrets/"); [|eexists _, _; reflexivity].
  cbv zeta. destruct (Str.pop (Str.split Str.slash pathname)) as [n|];
    [|eexists _, _; reflexivity].
  destruct (Str.is_empty n) eqn:Hn.
  - eexists _, _. unfold handleGetSecret. rewrite Hn. reflexivity.
  - destruct (handleGetSecret_completes n w Hn) as (r & w' & H & _).
    exists r, w'. exact H.
Qed.

(** ** Test mode leaves no trace *)

Lemma handleGetSecret_test_mode (name : option string) (w : World) :
  test_mode w = true ->
  exists r, handleGetSecret getSecret name w = (Normal r, w).
Proof.
  intros Hmode. destruct name as [n|]; [|eexists; reflexivity].
  destruct (Str.is_empty n) eqn:Hn.
  - eexists. unfold handleGetSecret. rewrite Hn. reflexivity.
  - destruct (getSecret_test_mode_returns n w Hmode) as [v Hv].
    eexists. apply (handleGetSecret_success getSecret n w w v Hn Hv).
Qed.

Lemma fetch_test_mode (configPath pathname : string) (w : World) :
  test_mode w = true ->
  exists r, fetch configPath pathname w = (Normal r, w).
Proof.
  intros Hmode. unfold fetch.
  destruct (String.eqb pathname "/config.js"); [eexists; reflexivity|].
  destruct (Str.startsWith pathname "/api/secrets/"); [|eexists; reflexivity].
  apply handleGetSecret_test_mode, Hmode.
Qed.

(** C8. In test mode, handling a name leaves the world as it was, and
    handling it again gives the same completion, a response; so do two
    requests for the same path through the dispatcher. *)
Theorem secret_request_idempotent (name : option string) (configPath pathname : string) (w : World) :
  test_mode w = true ->
  (let first := handleGetSecret getSecret name w in
   let second := handleGetSecret getSecret name (snd first) in
   (exists r, fst first = Normal r) /\
   snd first = w /\ fst second = fst first /\ snd second = w) /\
  (let first := fetch configPath pathname w in
   let second := fetch configPath pathname (snd first) in
   (exists r, fst first = Normal r) /\
   snd first = w /\ fst second = fst first /\ snd second = w).
Proof.
  intros Hmode. split; cbv zeta.
  - destruct (handleGetSecret_test_mode name w Hmode) as [r Hr].
    rewrite Hr. cbn [fst snd]. rewrite Hr. cbn [fst snd].
    split; [exists r; reflexivity|]. repeat split.
  - destruct (fetch_test_mode configPath pathname w Hmode) as [r Hr].
    rewrite Hr. cbn [fst snd]. rewrite Hr. cbn [fst snd].
    split; [exists r; reflexivity|]. repeat split.
Qed.

(** ** Startup *)

Lemma authenticateProtonPass_test_mode (w : World) :
  test_mode w = true ->
  authenticateProtonPass w =
    (Normal tt, add_log (ConsoleLog "Test mode: Skipping Proton Pass authentication") w).
Proof.
  unfold test_mode, authenticateProtonPass, getenv, mbind, Eff_bind.
  intros ->. reflexivity.
Qed.

Lemma authenticateProtonPass_live (w : World) :
  test_mode w = false ->
  let login := PassCliLogin (env w !! "PROTON_EMAIL") in
  authenticateProtonPass w =
    match pass_cli (spawned w) login with
    | inr _ =>
        (Normal tt, add_log (ConsoleLog "Authenticated with Proton Pass") (add_spawned login w))
    | inl t =>
        (Exits 1,
         add_log (ConsoleError "Failed to authenticate with Proton Pass:" t)
           (add_spawned login w))
    end.
Proof.
  unfold test_mode, authenticateProtonPass, getenv, try_catch, shell.
  unfold mbind, Eff_bind. intros ->. cbv zeta. cbn [env add_spawned].
  destruct (pass_cli (spawned w) (PassCliLogin (env w !! "PROTON_EMAIL"))); reflexivity.
Qed.

(** C9. The authenticator itself never starts the server, and the server
    listens only after it has completed normally, with no further
    subprocess in between. In test mode it only
    logs that authentication is skipped. Otherwise it runs the login of
    the tool with the identity of the environment: when that succeeds it
    logs so and completes; when that fails it logs the error and exits
    with status 1, [startServer] ends there, the server does not listen
    and no request gets a response. *)
Theorem startup_authentication (w : World) :
  let login := PassCliLogin (env w !! "PROTON_EMAIL") in
  listening (snd (authenticateProtonPass w)) = listening w /\
  (forall w2, startServer w = (Normal tt, w2) ->
     exists w1 options,
       authenticateProtonPass w = (Normal tt, w1) /\
       listening w2 = Some options /\ spawned w2 = spawned w1) /\
  (test_mode w = true ->
     authenticateProtonPass w =
       (Normal tt, add_log (ConsoleLog "Test mode: Skipping Proton Pass authentication") w)) /\
  (test_mode w = false -> forall v, pass_cli (spawned w) login = inr v ->
     authenticateProtonPass w =
       (Normal tt,
        add_log (ConsoleLog "Authenticated with Proton Pass") (add_spawned login w))) /\
  (test_mode w = false -> forall t, pass_cli (spawned w) login = inl t ->
     let w' := add_log (ConsoleError "Failed to authenticate with Proton Pass:" t)
                 (add_spawned login w) in
     authenticateProtonPass w = (Exits 1, w') /\
     startServer w = (Exits 1, w') /\
     1 <> 0 /\
     listening w' = listening w /\
     forall pathnames, run_process pathnames w = ([], w')).
Proof.
  intros login. repeat apply conj.
  - destruct (test_mode w) eqn:Hmode.
    + rewrite authenticateProtonPass_test_mode by exact Hmode. reflexivity.
    + rewrite authenticateProtonPass_live by exact Hmode. cbv zeta.
      destruct (pass_cli _ _); reflexivity.
  - intros w2. unfold startServer. unfold mbind at 1. unfold Eff_bind at 1.
    destruct (authenticateProtonPass w) as [[[]|t|c] w1]; [|discriminate|discriminate].
    cbv [mbind Eff_bind console_log env_or getenv serve mret Eff_ret].
    match goal with |- context [bun_serve ?o] => destruct (bun_serve o) as [t|address] end;
      [discriminate|].
    intros H. injection H as <-.
    eexists w1, _. repeat split.
  - apply authenticateProtonPass_test_mode.
  - intros Hmode v Hv. rewrite authenticateProtonPass_live by exact Hmode.
    cbv zeta. fold login. rewrite Hv. reflexivity.
  - intros Hmode t Ht w'.
    assert (Hauth : authenticateProtonPass w = (Exits 1, w')).
    { rewrite authenticateProtonPass_live by exact Hmode.
      cbv zeta. fold login. rewrite Ht. reflexivity. }
    assert (Hstart : startServer w = (Exits 1, w')).
    { unfold startServer. unfold mbind at 1. unfold Eff_bind at 1.
      rewrite Hauth. reflexivity. }
    repeat apply conj.
    + exact Hauth.
    + exact Hstart.
    + discriminate.
    + reflexivity.
    + intros pathnames. unfold run_process. rewrite Hstart. reflexivity.
Qed.

(** * Further properties of the server *)

(** ** The gateway and the tool *)

(** The world after a call of the gateway: untouched in test mode, one
    more subprocess otherwise, whatever the outcome. *)
Lemma getSecret_world (name : string) (w : World) :
  snd (getSecret name w) =
    if test_mode w then w else add_spawned (PassCliItemGet name) w.
Proof.
  destruct (test_mode w) eqn:Hmode.
  - rewrite getSecret_test_mode by exact Hmode. reflexivity.
  - rewrite getSecret_live by exact Hmode. reflexivity.
Qed.

Lemma test_mode_add_spawned (cmd : Command) (w : World) :
  test_mode (add_spawned cmd w) = test_mode w.
Proof. reflexivity. Qed.

Lemma test_mode_add_log (l : LogLine) (w : World) :
  test_mode (add_log l w) = test_mode w.
Proof. reflexivity. Qed.

(** X1. Outside test mode, with a payload that is an object: a truthy
    password is returned whatever the text is; when the password is
    absent or falsy (the empty string, say) a truthy text is returned. *)
Theorem getSecret_password_first
  (name : string) (w : World) (result : Value) (fields : list (string * Value)) :
  test_mode w = false ->
  pass_cli (spawned w) (PassCliItemGet name) = inr result ->
  nullish result = false ->
  get_field_opt (get_field_opt (get_field result data) content) itemData = VObject fields ->
  (forall p, own_property fields "password" = Some p -> truthy p = true ->
     fst (getSecret name w) = Normal p) /\
  (forall t,
     (own_property fields "password" = None \/
      exists p, own_property fields "password" = Some p /\ truthy p = false) ->
     own_property fields "text" = Some t -> truthy t = true ->
     fst (getSecret name w) = Normal t).
Proof.
  intros Hmode Htool Hres Hitem.
  assert (Hget : fst (getSecret name w) =
            Normal (or_else (get_field (VObject fields) password)
                      (or_else (get_field (VObject fields) text) (VString EmptyString)))).
  { rewrite getSecret_live by exact Hmode. rewrite Htool, Hres. cbv zeta.
    rewrite Hitem. reflexivity. }
  split.
  - intros p Hp Htruthy. rewrite Hget. unfold get_field at 1.
    change (field_name password) with "password". rewrite Hp.
    unfold or_else at 1. rewrite Htruthy. reflexivity.
  - intros t Hpw Ht Htruthy. rewrite Hget.
    assert (Hfalsy : truthy (get_field (VObject fields) password) = false).
    { unfold get_field. change (field_name password) with "password".
      destruct Hpw as [Hnone | (p & Hp & Hf)].
      - rewrite Hnone. reflexivity.
      - rewrite Hp. exact Hf. }
    unfold or_else at 1. rewrite Hfalsy.
    unfold get_field. change (field_name text) with "text". rewrite Ht.
    unfold or_else. rewrite Htruthy. reflexivity.
Qed.

(** X2. Outside test mode, output of the tool that is not an item: on
    [null] the gateway throws the [TypeError] of the engine, not the
    not-found error, and the handler answers 500 with the message of the
    engine; on any other output without [data] or without [content] (a
    string, a number, an array, an object without these members or with
    [null] there) the gateway throws the not-found error. *)
Theorem getSecret_malformed_output (name : string) (w : World) (result : Value) :
  test_mode w = false ->
  Str.is_empty name = false ->
  pass_cli (spawned w) (PassCliItemGet name) = inr result ->
  let w' := add_spawned (PassCliItemGet name) w in
  (nullish result = true ->
     let error := ThrowError {| err_name := "TypeError";
                                err_message := nullish_read_message result data |} in
     getSecret name w = (Throws error, w') /\
     handleGetSecret getSecret (Some name) w =
       (Normal {| status := 500; headers := [];
                  body := JsonText ("{" +:+ in_quotes "error" +:+ ":"
                                      +:+ quote (nullish_read_message result data) +:+ "}") |},
        add_log (ConsoleError ("Error fetching secret '" +:+ name +:+ "':") error) w')) /\
  (nullish result = false ->
   nullish (get_field result data) = true \/
   nullish (get_field (get_field result data) content) = true ->
     getSecret name w = (Throws (SecretNotFound name), w')).
Proof.
  intros Hmode Hname Htool w'. split.
  - intros Hnull error.
    assert (Hget : getSecret name w = (Throws error, w')).
    { rewrite getSecret_live by exact Hmode. rewrite Htool, Hnull. reflexivity. }
    split; [exact Hget|].
    rewrite (handleGetSecret_failure getSecret name w w' _ Hname Hget).
    rewrite Response_json_error. reflexivity.
  - intros Hres Hmissing.
    rewrite getSecret_live by exact Hmode. rewrite Htool, Hres. cbv zeta.
    assert (Hitem : get_field_opt (get_field_opt (get_field result data) content) itemData
                    = VUndefined).
    { destruct Hmissing as [Hd | Hc].
      - unfold get_field_opt at 2. rewrite Hd. reflexivity.
      - unfold get_field_opt.
        destruct (nullish (get_field result data)); [reflexivity|].
        rewrite Hc. reflexivity. }
    rewrite Hitem. reflexivity.
Qed.

Lemma own_property_is_json (fields : list (string * Value)) (key : string) (x : Value) :
  forallb (fun kx => is_json (snd kx)) fields = true ->
  own_property fields key = Some x -> is_json x = true.
Proof.
  induction fields as [|[k y] rest IH]; [discriminate|].
  cbn [forallb own_property snd]. intros H Hx.
  apply andb_prop in H as [Hy Hrest].
  destruct (String.eqb k key).
  - injection Hx as <-. exact Hy.
  - exact (IH Hrest Hx).
Qed.

(** A member of a value of the tool is a value of the tool, or is not
    there. *)
Lemma get_field_is_json (v : Value) (f : Field) :
  is_json v = true ->
  get_field v f = VUndefined \/ is_json (get_field v f) = true.
Proof.
  intros Hv. destruct v as [| | | | | |fields| |]; try (left; reflexivity).
  unfold get_field.
  destruct (own_property fields (field_name f)) as [x|] eqn:Hx.
  - right. exact (own_property_is_json fields _ x Hv Hx).
  - left. destruct f; reflexivity.
Qed.

Lemma get_field_opt_is_json (v : Value) (f : Field) :
  v = VUndefined \/ is_json v = true ->
  get_field_opt v f = VUndefined \/ is_json (get_field_opt v f) = true.
Proof.
  intros [-> | Hv]; [left; reflexivity|].
  unfold get_field_opt. destruct (nullish v); [left; reflexivity|].
  apply get_field_is_json, Hv.
Qed.

Lemma is_json_stringify (v : Value) :
  is_json v = true -> exists t, JSON_stringify v = Some t.
Proof. destruct v; try discriminate; intros _; eexists; reflexivity. Qed.

Lemma Response_json_member (v : Value) (t : string) (st : Z) :
  JSON_stringify v = Some t ->
  Response_json [("value", v)] st =
    {| status := st; headers := [];
       body := JsonText ("{" +:+ in_quotes "value" +:+ ":" +:+ t +:+ "}") |}.
Proof.
  intros Ht. unfold Response_json, stringify_object.
  change (JSON_stringify (VObject [("value", v)]))
    with (Some ("{" +:+ join ","
                  (omap (fun kx => (fun t => quote (fst kx) +:+ ":" +:+ t)
                                     <$> JSON_stringify (snd kx))
                     [("value", v)]) +:+ "}")).
  cbn [omap list_omap fst snd]. rewrite Ht.
  cbn [fmap option_fmap option_map join default].
  rewrite !append_assoc. reflexivity.
Qed.

(** X3. Outside test mode, when the output of the tool is a JSON value
    and the gateway returns, what it returns is a JSON value that is the
    empty string or truthy, never [null] or [undefined]; so the body of
    the 200 response always has the member [value]. *)
Theorem getSecret_value_present (name : string) (w w' : World) (result v : Value) :
  test_mode w = false ->
  pass_cli (spawned w) (PassCliItemGet name) = inr result ->
  is_json result = true ->
  getSecret name w = (Normal v, w') ->
  is_json v = true /\
  (v = VString EmptyString \/ truthy v = true) /\
  exists t,
    JSON_stringify v = Some t /\
    Response_json [("value", v)] 200 =
      {| status := 200; headers := [];
         body := JsonText ("{" +:+ in_quotes "value" +:+ ":" +:+ t +:+ "}") |}.
Proof.
  intros Hmode Htool Hjson Hget.
  rewrite getSecret_live in Hget by exact Hmode. rewrite Htool in Hget.
  destruct (nullish result); [discriminate|]. cbv zeta in Hget.
  set (item := get_field_opt (get_field_opt (get_field result data) content) itemData) in *.
  assert (Hitem : item = VUndefined \/ is_json item = true).
  { apply get_field_opt_is_json, get_field_opt_is_json, get_field_is_json, Hjson. }
  destruct (truthy item) eqn:Htruthy; [|discriminate].
  destruct Hitem as [Hu | Hitem]; [rewrite Hu in Htruthy; discriminate|].
  injection Hget as <- _.
  assert (H : is_json (or_else (get_field item password)
                         (or_else (get_field item text) (VString EmptyString))) = true /\
              (or_else (get_field item password)
                 (or_else (get_field item text) (VString EmptyString)) = VString EmptyString \/
               truthy (or_else (get_field item password)
                         (or_else (get_field item text) (VString EmptyString))) = true)).
  { unfold or_else.
    destruct (truthy (get_field item password)) eqn:Hp.
    - split; [|right; exact Hp].
      destruct (get_field_is_json item password Hitem) as [Hu | Hj]; [|exact Hj].
      rewrite Hu in Hp. discriminate.
    - destruct (truthy (get_field item text)) eqn:Ht.
      + split; [|right; exact Ht].
        destruct (get_field_is_json item text Hitem) as [Hu | Hj]; [|exact Hj].
        rewrite Hu in Ht. discriminate.
      + split; [reflexivity|left; reflexivity]. }
  destruct H as [Hv Hshape]. split; [exact Hv|]. split; [exact Hshape|].
  destruct (is_json_stringify _ Hv) as [t Ht].
  exists t. split; [exact Ht|]. apply Response_json_member, Ht.
Qed.

(** X4. Outside test mode nothing is kept between calls: each call of the
    gateway runs the tool once more, also for the same name, and touches
    nothing else; the outcome of the second call is read off what the
    tool gives then, whether it rejects or succeeds, whatever the first
    call gave. *)
Theorem getSecret_no_cache (name : string) (w : World) :
  test_mode w = false ->
  let cmd := PassCliItemGet name in
  let w1 := snd (getSecret name w) in
  let w2 := snd (getSecret name w1) in
  spawned w1 = spawned w ++ [cmd] /\
  spawned w2 = spawned w ++ [cmd; cmd] /\
  env w2 = env w /\ console w2 = console w /\ listening w2 = listening w /\
  fst (getSecret name w1) =
    match pass_cli (spawned w ++ [cmd]) cmd with
    | inl t => Throws t
    | inr result =>
        if nullish result then
          Throws (ThrowError {| err_name := "TypeError";
                                err_message := nullish_read_message result data |})
        else
          let item := get_field_opt (get_field_opt (get_field result data) content) itemData in
          if truthy item then
            Normal (or_else (get_field item password)
                      (or_else (get_field item text) (VString EmptyString)))
          else Throws (SecretNotFound name)
    end.
Proof.
  intros Hmode cmd w1 w2.
  assert (H1 : w1 = add_spawned cmd w).
  { unfold w1. rewrite getSecret_world, Hmode. reflexivity. }
  assert (H2 : w2 = add_spawned cmd (add_spawned cmd w)).
  { unfold w2. rewrite H1, getSecret_world, test_mode_add_spawned, Hmode. reflexivity. }
  rewrite H1, H2. cbn [spawned env console listening add_spawned].
  rewrite <- app_assoc. repeat split.
  rewrite getSecret_live by (rewrite test_mode_add_spawned; exact Hmode).
  reflexivity.
Qed.

(** X16. The gateway throws outside test mode only, and what it throws is
    what the shell call of the tool rejected with, or the [TypeError] of
    the engine on the output [null] or [undefined], or the not-found
    error on output without a payload. *)
Theorem getSecret_failures (name : string) (w w' : World) (t : Thrown) :
  getSecret name w = (Throws t, w') ->
  test_mode w = false /\
  (pass_cli (spawned w) (PassCliItemGet name) = inl t \/
   exists result,
     pass_cli (spawned w) (PassCliItemGet name) = inr result /\
     ((nullish result = true /\
       t = ThrowError {| err_name := "TypeError";
                         err_message := nullish_read_message result data |}) \/
      (nullish result = false /\
       truthy (get_field_opt (get_field_opt (get_field result data) content) itemData) = false /\
       t = SecretNotFound name))).
Proof.
  intros H. destruct (test_mode w) eqn:Hmode.
  - rewrite getSecret_test_mode in H by exact Hmode. discriminate.
  - split; [reflexivity|].
    rewrite getSecret_live in H by exact Hmode.
    destruct (pass_cli (spawned w) (PassCliItemGet name)) as [t0|result].
    + left. injection H as -> _. reflexivity.
    + right. exists result. split; [reflexivity|].
      destruct (nullish result).
      * left. injection H as <- _. split; reflexivity.
      * right. cbv zeta in H.
        destruct (truthy (get_field_opt (get_field_opt (get_field result data) content)
                            itemData)); [discriminate|].
        injection H as <- _. repeat split.
Qed.

(** ** What a request does to the world *)

Lemma split_pieces_free (sep : ascii) (s : string) :
  forallb (Str.free_of sep) (Str.split sep s) = true.
Proof.
  induction s as [|c s IH]; [reflexivity|].
  cbn [Str.split]. destruct (Ascii.eqb c sep) eqn:Hc.
  - cbn [forallb Str.free_of]. exact IH.
  - destruct (Str.split sep s) as [|piece pieces].
    + cbn [forallb Str.free_of]. rewrite Hc. reflexivity.
    + cbn [forallb Str.free_of] in *. rewrite Hc. exact IH.
Qed.

Lemma pop_forallb (P : string -> bool) (l : list string) (x : string) :
  forallb P l = true -> Str.pop l = Some x -> P x = true.
Proof.
  induction l as [|y l IH]; [discriminate|].
  cbn [forallb]. intros H Hx. apply andb_prop in H as [Hy Hl].
  destruct l as [|z l].
  - injection Hx as <-. exact Hy.
  - exact (IH Hl Hx).
Qed.

(** The name the dispatcher takes off a path has no slash. *)
Lemma pop_split_free (sep : ascii) (s n : string) :
  Str.pop (Str.split sep s) = Some n -> Str.free_of sep n = true.
Proof. apply pop_forallb, split_pieces_free. Qed.

Lemma handleGetSecret_frame (name : string) (w : World) :
  Str.is_empty name = false ->
  exists r w',
    handleGetSecret getSecret (Some name) w = (Normal r, w') /\
    env w' = env w /\ listening w' = listening w /\
    spawned w' = (if test_mode w then spawned w
                  else spawned w ++ [PassCliItemGet name]) /\
    ((status r = 200 /\ console w' = console w) \/
     (status r = 500 /\
      exists t, console w' =
                  console w ++ [ConsoleError ("Error fetching secret '" +:+ name +:+ "':") t])).
Proof.
  intros Hn.
  pose proof (getSecret_world name w) as Hw.
  destruct (getSecret name w) as [[v|t|c] w1] eqn:Hg; cbn [snd] in Hw.
  - rewrite (handleGetSecret_success getSecret name w w1 v Hn Hg).
    eexists _, _. split; [reflexivity|]. rewrite Hw.
    destruct (test_mode w); repeat split; left; split; reflexivity.
  - rewrite (handleGetSecret_failure getSecret name w w1 t Hn Hg).
    eexists _, _. split; [reflexivity|]. rewrite Hw.
    destruct (test_mode w); repeat split; right; (split; [reflexivity|]);
      exists t; reflexivity.
  - exfalso. exact (getSecret_no_exit name w c w1 Hg).
Qed.

(** What every request keeps. *)
Lemma fetch_keeps (configPath pathname : string) (w : World) :
  exists r w',
    fetch configPath pathname w = (Normal r, w') /\
    env w' = env w /\ listening w' = listening w /\
    (test_mode w = true -> spawned w' = spawned w).
Proof.
  unfold fetch.
  destruct (String.eqb pathname "/config.js"); [eexists _, _; repeat split|].
  destruct (Str.startsWith pathname "/api/secrets/"); [|eexists _, _; repeat split].
  cbv zeta. destruct (Str.pop (Str.split Str.slash pathname)) as [n|];
    [|eexists _, _; repeat split].
  destruct (Str.is_empty n) eqn:Hn.
  - unfold handleGetSecret. rewrite Hn. eexists _, _. repeat split.
  - destruct (handleGetSecret_frame n w Hn) as (r & w' & H & He & Hl & Hs & _).
    exists r, w'. repeat split; try assumption.
    intros Hmode. rewrite Hs, Hmode. reflexivity.
Qed.



(** X6. Outside test mode a request for a secret, with a non-empty final
    token, runs the tool exactly once, on that token; so does a second
    request for the same path. *)
Theorem fetch_live_runs_tool (configPath pre tok : string) (w : World) :
  test_mode w = false ->
  Str.startsWith (pre +:+ String Str.slash tok) "/api/secrets/" = true ->
  Str.free_of Str.slash tok = true ->
  Str.is_empty tok = false ->
  let pathname := pre +:+ String Str.slash tok in
  let w1 := snd (fetch configPath pathname w) in
  let w2 := snd (fetch configPath pathname w1) in
  spawned w1 = spawned w ++ [PassCliItemGet tok] /\
  spawned w2 = spawned w ++ [PassCliItemGet tok; PassCliItemGet tok].
Proof.
  intros Hmode Hpre Hfree Htok pathname w1 w2. subst w2 w1 pathname.
  assert (Hfetch : forall w0, fetch configPath (pre +:+ String Str.slash tok) w0 =
                              handleGetSecret getSecret (Some tok) w0).
  { intros w0. unfold fetch.
    rewrite (startsWith_api_not_config _ Hpre), Hpre. cbv zeta.
    rewrite (pop_split_app Str.slash pre tok Hfree). reflexivity. }
  assert (Hstep : forall w0, test_mode w0 = false ->
            let w0' := snd (handleGetSecret getSecret (Some tok) w0) in
            spawned w0' = spawned w0 ++ [PassCliItemGet tok] /\ test_mode w0' = false).
  { intros w0 Hm0. cbv zeta.
    destruct (handleGetSecret_frame tok w0 Htok) as (r & w0' & H & He & _ & Hs & _).
    rewrite H. cbn [snd]. rewrite Hm0 in Hs. split; [exact Hs|].
    unfold test_mode in *. rewrite He. exact Hm0. }
  rewrite !Hfetch.
  destruct (Hstep w Hmode) as [Hs1 Hm1].
  destruct (Hstep _ Hm1) as [Hs2 _].
  split; [exact Hs1|]. rewrite Hs2, Hs1, <- app_assoc. reflexivity.
Qed.

(** ** The process *)

Lemma authenticateProtonPass_keeps (w : World) :
  env (snd (authenticateProtonPass w)) = env w /\
  listening (snd (authenticateProtonPass w)) = listening w /\
  (test_mode w = true -> spawned (snd (authenticateProtonPass w)) = spawned w).
Proof.
  destruct (test_mode w) eqn:Hmode.
  - rewrite authenticateProtonPass_test_mode by exact Hmode. repeat split.
  - rewrite authenticateProtonPass_live by exact Hmode. cbv zeta.
    destruct (pass_cli _ _); repeat split; discriminate.
Qed.

(** [startServer] once the authenticator has completed. *)
Lemma startServer_after_auth (w w1 : World) :
  authenticateProtonPass w = (Normal tt, w1) ->
  let port := match env w1 !! "SERVER_PORT" with
              | Some s => if Str.is_empty s then "16080" else s
              | None => "16080"
              end in
  let hostname := match env w1 !! "SERVER_HOST" with
                  | Some s => if Str.is_empty s then "127.0.0.1" else s
                  | None => "127.0.0.1"
                  end in
  let options := {| serve_port := parseInt port; serve_hostname := hostname;
                    serve_bundle := getConfigPath |} in
  let w2 := add_log (ConsoleLog ("Serving config from: " +:+ getConfigPath)) w1 in
  startServer w =
    match bun_serve options with
    | inl t => (Throws t, w2)
    | inr address =>
        (Normal tt,
         add_log (ConsoleLog ("Config available at http://" +:+ address +:+ "/config.js"))
           (add_log (ConsoleLog ("Server running at http://" +:+ address))
              {| env := env w2; console := console w2; spawned := spawned w2;
                 listening := Some options |}))
    end.
Proof.
  intros Hauth port hostname options w2.
  unfold startServer. unfold mbind at 1. unfold Eff_bind at 1. rewrite Hauth.
  cbv [mbind Eff_bind console_log env_or getenv serve mret Eff_ret].
  cbn [env add_log]. fold port hostname. fold options.
  destruct (bun_serve options); reflexivity.
Qed.

Lemma serve_requests_keeps (pathnames : list string) (w : World) (options : ServeOptions) :
  listening w = Some options ->
  length (fst (serve_requests pathnames w)) = length pathnames /\
  listening (snd (serve_requests pathnames w)) = Some options /\
  env (snd (serve_requests pathnames w)) = env w /\
  (test_mode w = true -> spawned (snd (serve_requests pathnames w)) = spawned w).
Proof.
  revert w. induction pathnames as [|pathname rest IH]; intros w Hl.
  - repeat split. exact Hl.
  - cbn [serve_requests]. rewrite Hl.
    destruct (fetch_keeps (serve_bundle options) pathname w) as (r & w' & H & He & Hl' & Hs).
    rewrite H. rewrite Hl in Hl'.
    destruct (IH w' Hl') as (Hlen & Hlis & Henv & Hsp).
    destruct (serve_requests rest w') as [rs w'']. cbn [fst snd length] in *.
    split; [rewrite Hlen; reflexivity|]. split; [exact Hlis|].
    split; [rewrite Henv; exact He|].
    intros Hmode. rewrite Hsp; [exact (Hs Hmode)|].
    unfold test_mode in *. rewrite He. exact Hmode.
Qed.

(** X7. Once the server listens, and for a tool whose every call settles
    (it returns or it rejects; a call that never answers is not
    modelled), no request of a sequence stops the serving: the responses
    are as many as the requests, also when the tool rejects in between;
    the server still listens afterwards, with the same options, and the
    environment is as it was. *)
Theorem serve_requests_answers_all
  (pathnames : list string) (w : World) (options : ServeOptions) :
  listening w = Some options ->
  length (fst (serve_requests pathnames w)) = length pathnames /\
  listening (snd (serve_requests pathnames w)) = Some options /\
  env (snd (serve_requests pathnames w)) = env w.
Proof.
  intros Hl. destruct (serve_requests_keeps pathnames w options Hl) as (H1 & H2 & H3 & _).
  repeat split; assumption.
Qed.

(** X8. A process started in test mode never runs the tool, neither at
    startup nor for any request; and when [serve] accepts, it answers
    every request. *)
Theorem run_process_test_mode (pathnames : list string) (w : World) :
  test_mode w = true ->
  spawned (snd (run_process pathnames w)) = spawned w /\
  (forall w1, startServer w = (Normal tt, w1) ->
     length (fst (run_process pathnames w)) = length pathnames).
Proof.
  intros Hmode.
  pose proof (authenticateProtonPass_test_mode w Hmode) as Hauth.
  pose proof (startServer_after_auth w _ Hauth) as Hstart. cbv zeta in Hstart.
  unfold run_process. rewrite Hstart.
  match goal with |- context [bun_serve ?o] => destruct (bun_serve o) as [t|address] eqn:Hs end.
  - split; [reflexivity|]. intros w1 H. discriminate.
  - match goal with |- context [serve_requests pathnames ?w0] =>
      destruct (serve_requests_keeps pathnames w0 _ eq_refl) as (Hlen & _ & _ & Hsp)
    end.
    split; [|intros w1 _; exact Hlen].
    rewrite Hsp; [reflexivity|exact Hmode].
Qed.

(** X9. When the authenticator has completed and [SERVER_PORT] and
    [SERVER_HOST] are unset or empty, [serve] is called with the port
    [parseInt('16080')], the host [127.0.0.1] and the bundle of the
    container when that file exists, of the build directory otherwise.
    When [serve] accepts, the server listens with these options and three
    lines are logged, with no further subprocess; when [serve] throws,
    [startServer] throws the same and the server does not listen. *)
Theorem startServer_defaults (w w1 : World) :
  authenticateProtonPass w = (Normal tt, w1) ->
  env w !! "SERVER_PORT" = None \/ env w !! "SERVER_PORT" = Some EmptyString ->
  env w !! "SERVER_HOST" = None \/ env w !! "SERVER_HOST" = Some EmptyString ->
  let options := {| serve_port := parseInt "16080"; serve_hostname := "127.0.0.1";
                    serve_bundle := getConfigPath |} in
  serve_bundle options =
    (if existsSync "/app/static/config.js" then "/app/static/config.js"
     else resolve import_meta_dir "../../config/dist/bundle.js") /\
  (forall address, bun_serve options = inr address ->
     exists w2,
       startServer w = (Normal tt, w2) /\
       listening w2 = Some options /\ spawned w2 = spawned w1 /\
       console w2 =
         console w1 ++
           [ ConsoleLog ("Serving config from: " +:+ getConfigPath);
             ConsoleLog ("Server running at http://" +:+ address);
             ConsoleLog ("Config available at http://" +:+ address +:+ "/config.js") ]) /\
  (forall t, bun_serve options = inl t ->
     exists w2, startServer w = (Throws t, w2) /\ listening w2 = listening w).
Proof.
  intros Hauth Hport Hhost options.
  pose proof (startServer_after_auth w w1 Hauth) as Hstart. cbv zeta in Hstart.
  destruct (authenticateProtonPass_keeps w) as (Henv & Hlis & _).
  rewrite Hauth in Henv, Hlis. cbn [snd] in Henv, Hlis.
  assert (Hp : match env w1 !! "SERVER_PORT" with
               | Some s => if Str.is_empty s then "16080" else s
               | None => "16080"
               end = "16080").
  { rewrite Henv. destruct Hport as [-> | ->]; reflexivity. }
  assert (Hh : match env w1 !! "SERVER_HOST" with
               | Some s => if Str.is_empty s then "127.0.0.1" else s
               | None => "127.0.0.1"
               end = "127.0.0.1").
  { rewrite Henv. destruct Hhost as [-> | ->]; reflexivity. }
  rewrite Hp, Hh in Hstart. fold options in Hstart.
  split; [reflexivity|]. split.
  - intros address Hs. rewrite Hs in Hstart. eexists. split; [exact Hstart|].
    cbn [listening spawned console add_log]. repeat split.
    rewrite <- !app_assoc. reflexivity.
  - intros t Hs. rewrite Hs in Hstart. eexists. split; [exact Hstart|]. exact Hlis.
Qed.

(** X10. Only the value [true] of [TEST_MODE] turns test mode on: with
    any other value, or none, the authenticator runs the login of the
    tool and the gateway runs the lookup. *)
Theorem test_mode_only_true (name : string) (w : World) :
  env w !! "TEST_MODE" <> Some "true" ->
  spawned (snd (authenticateProtonPass w)) =
    spawned w ++ [PassCliLogin (env w !! "PROTON_EMAIL")] /\
  spawned (snd (getSecret name w)) = spawned w ++ [PassCliItemGet name].
Proof.
  intros Hne.
  assert (Hmode : test_mode w = false).
  { unfold test_mode. apply bool_decide_eq_false_2. exact Hne. }
  split.
  - rewrite authenticateProtonPass_live by exact Hmode. cbv zeta.
    destruct (pass_cli _ _); reflexivity.
  - rewrite getSecret_world, Hmode. reflexivity.
Qed.

(** X11. The bundle path matters to [/config.js] only: on every other
    path the dispatcher answers as the earlier one, with the path of the
    container written out, did; and where the bundle of the container
    exists the two agree on every path. *)
Theorem fetch_agrees_with_earlier (configPath pathname : string) (w : World) :
  (pathname <> "/config.js" -> fetch configPath pathname w = fetch_static pathname w) /\
  (existsSync "/app/static/config.js" = true ->
     fetch getConfigPath pathname w = fetch_static pathname w).
Proof.
  split.
  - intros Hne. apply String.eqb_neq in Hne. unfold fetch, fetch_static.
    rewrite Hne. reflexivity.
  - intros Hex. unfold getConfigPath. rewrite Hex. reflexivity.
Qed.

(** ** Which paths get which status *)

Lemma split_not_empty (sep : ascii) (s : string) : Str.split sep s <> [].
Proof.
  destruct s as [|c s]; [discriminate|].
  cbn [Str.split]. destruct (Ascii.eqb c sep); [discriminate|].
  destruct (Str.split sep s); discriminate.
Qed.

Lemma pop_some (l : list string) : l <> [] -> exists x, Str.pop l = Some x.
Proof.
  induction l as [|y l IH]; [contradiction|]. intros _.
  destruct l as [|z l]; [exists y; reflexivity|].
  destruct IH as [x Hx]; [discriminate|]. exists x. exact Hx.
Qed.

Lemma append_empty_r (s : string) : s +:+ EmptyString = s.
Proof.
  induction s as [|c s IH]; [reflexivity|].
  change (String c (s +:+ EmptyString) = String c s). rewrite IH. reflexivity.
Qed.

Lemma fetch_status_iff (configPath pathname : string) (w w' : World) (r : Response) :
  fetch configPath pathname w = (Normal r, w') ->
  (status r = 404 <->
     pathname <> "/config.js" /\ Str.startsWith pathname "/api/secrets/" = false) /\
  (status r = 400 <->
     Str.startsWith pathname "/api/secrets/" = true /\
     exists pre, pathname = pre +:+ "/").
Proof.
  unfold fetch. destruct (String.eqb pathname "/config.js") eqn:Hcfg.
  { intros H. injection H as <- _. apply String.eqb_eq in Hcfg. subst pathname.
    split; split; try discriminate.
    - intros [Hne _]. contradiction.
    - intros [Hpre _]. discriminate. }
  apply String.eqb_neq in Hcfg.
  destruct (Str.startsWith pathname "/api/secrets/") eqn:Hpre.
  2:{ intros H. injection H as <- _. split; split; try discriminate.
      - intros _. split; [exact Hcfg|reflexivity].
      - intros _. reflexivity.
      - intros [Hf _]. discriminate. }
  cbv zeta.
  destruct (final_token_exists pathname (startsWith_api_has_slash pathname Hpre))
    as (pre & tok & Hpath & Hfree).
  assert (Hpop : Str.pop (Str.split Str.slash pathname) = Some tok).
  { rewrite Hpath. apply pop_split_app, Hfree. }
  rewrite Hpop. intros H.
  destruct (Str.is_empty tok) eqn:Htok.
  - destruct tok; [|discriminate].
    unfold handleGetSecret in H. cbn [Str.is_empty] in H. injection H as <- _.
    split; split; try discriminate.
    + intros [_ Hf]. discriminate.
    + intros _. split; [reflexivity|]. exists pre. exact Hpath.
    + intros _. reflexivity.
  - destruct (handleGetSecret_frame tok w Htok) as (r0 & w0 & H0 & _ & _ & _ & Hst).
    rewrite H0 in H. injection H as <- _.
    assert (Hr : status r0 = 200 \/ status r0 = 500).
    { destruct Hst as [[Hs _] | [Hs _]]; [left|right]; exact Hs. }
    split; split.
    + intros H4. destruct Hr as [Hr | Hr]; rewrite Hr in H4; discriminate.
    + intros [_ Hf]. discriminate.
    + intros H4. destruct Hr as [Hr | Hr]; rewrite Hr in H4; discriminate.
    + intros [_ [pre' Hpath']]. exfalso.
      assert (Hpop' : Str.pop (Str.split Str.slash pathname) = Some EmptyString).
      { rewrite Hpath'. apply (pop_split_app Str.slash pre' EmptyString). reflexivity. }
      rewrite Hpop in Hpop'. injection Hpop' as ->. discriminate.
Qed.

(** X14. The dispatcher answers 404 exactly on the paths that are neither
    [/config.js] nor under [/api/secrets/], and 400 exactly on the paths
    under [/api/secrets/] that end in a slash. The name it takes off a
    path is never absent: [split('/').pop()] gives a string for every
    path, and under [/api/secrets/] the handler is called with that
    string. *)
Theorem fetch_status (configPath pathname : string) (w w' : World) (r : Response) :
  fetch configPath pathname w = (Normal r, w') ->
  (status r = 404 <->
     pathname <> "/config.js" /\ Str.startsWith pathname "/api/secrets/" = false) /\
  (status r = 400 <->
     Str.startsWith pathname "/api/secrets/" = true /\
     exists pre, pathname = pre +:+ "/") /\
  (exists n,
     Str.pop (Str.split Str.slash pathname) = Some n /\
     (Str.startsWith pathname "/api/secrets/" = true ->
      fetch configPath pathname w = handleGetSecret getSecret (Some n) w)).
Proof.
  intros H.
  destruct (fetch_status_iff configPath pathname w w' r H) as [H404 H400].
  split; [exact H404|]. split; [exact H400|].
  destruct (pop_some (Str.split Str.slash pathname) (split_not_empty Str.slash pathname))
    as [n Hn].
  exists n. split; [exact Hn|].
  intros Hpre. unfold fetch.
  rewrite (startsWith_api_not_config pathname Hpre), Hpre. cbv zeta.
  rewrite Hn. reflexivity.
Qed.

(** ** The order of the subprocesses *)

Lemma fetch_spawned (configPath pathname : string) (w : World) :
  exists r w',
    fetch configPath pathname w = (Normal r, w') /\
    listening w' = listening w /\
    (spawned w' = spawned w \/
     exists n, Str.is_empty n = false /\ Str.free_of Str.slash n = true /\
               spawned w' = spawned w ++ [PassCliItemGet n]).
Proof.
  unfold fetch.
  destruct (String.eqb pathname "/config.js");
    [eexists _, _; repeat split; left; reflexivity|].
  destruct (Str.startsWith pathname "/api/secrets/");
    [|eexists _, _; repeat split; left; reflexivity].
  cbv zeta. destruct (Str.pop (Str.split Str.slash pathname)) as [n|] eqn:Hpop;
    [|eexists _, _; repeat split; left; reflexivity].
  destruct (Str.is_empty n) eqn:Hn.
  - unfold handleGetSecret. rewrite Hn. eexists _, _. repeat split. left. reflexivity.
  - destruct (handleGetSecret_frame n w Hn) as (r & w' & H & _ & Hl & Hs & _).
    exists r, w'. split; [exact H|]. split; [exact Hl|].
    destruct (test_mode w); [left; exact Hs|].
    right. exists n. split; [exact Hn|]. split; [|exact Hs].
    exact (pop_split_free Str.slash pathname n Hpop).
Qed.

Lemma serve_requests_spawned (pathnames : list string) (w : World) :
  exists items,
    spawned (snd (serve_requests pathnames w)) = spawned w ++ items /\
    Forall (fun cmd => exists n, cmd = PassCliItemGet n /\ Str.is_empty n = false /\
                                 Str.free_of Str.slash n = true) items /\
    (length items <= length pathnames)%nat.
Proof.
  revert w. induction pathnames as [|pathname rest IH]; intros w.
  - exists []. cbn [serve_requests snd]. rewrite app_nil_r. repeat split; constructor.
  - cbn [serve_requests]. destruct (listening w) as [options|].
    2:{ exists []. cbn [snd]. rewrite app_nil_r. repeat split; [constructor|cbn; lia]. }
    destruct (fetch_spawned (serve_bundle options) pathname w) as (r & w' & H & _ & Hs).
    rewrite H. destruct (IH w') as (items & Hsp & Hall & Hlen).
    destruct (serve_requests rest w') as [rs w'']. cbn [snd] in *.
    destruct Hs as [Hs | (n & Hn & Hfree & Hs)].
    + exists items. rewrite Hsp, Hs. repeat split; [exact Hall|cbn; lia].
    + exists (PassCliItemGet n :: items). rewrite Hsp, Hs, <- app_assoc.
      repeat split; [|cbn; lia].
      constructor; [|exact Hall]. exists n. repeat split; assumption.
Qed.

(** X15. Outside test mode the first subprocess of the process is the
    login, with the identity of the environment; all later ones are
    lookups, at most one per request, each of a non-empty name without a
    slash; and when the login fails there is none. *)
Theorem run_process_login_first (pathnames : list string) (w : World) :
  test_mode w = false ->
  let login := PassCliLogin (env w !! "PROTON_EMAIL") in
  exists items,
    spawned (snd (run_process pathnames w)) = spawned w ++ login :: items /\
    Forall (fun cmd => exists n, cmd = PassCliItemGet n /\ Str.is_empty n = false /\
                                 Str.free_of Str.slash n = true) items /\
    (length items <= length pathnames)%nat /\
    (forall t, pass_cli (spawned w) login = inl t -> items = []).
Proof.
  intros Hmode login.
  pose proof (authenticateProtonPass_live w Hmode) as Hauth. cbv zeta in Hauth.
  fold login in Hauth. unfold run_process.
  destruct (pass_cli (spawned w) login) as [t|v] eqn:Htool.
  - assert (Hstart : startServer w =
              (Exits 1, add_log (ConsoleError "Failed to authenticate with Proton Pass:" t)
                          (add_spawned login w))).
    { unfold startServer. unfold mbind at 1. unfold Eff_bind at 1.
      rewrite Hauth. reflexivity. }
    rewrite Hstart. exists []. cbn [snd spawned add_log add_spawned].
    repeat split; [constructor|cbn; lia].
  - pose proof (startServer_after_auth w _ Hauth) as Hstart. cbv zeta in Hstart.
    rewrite Hstart.
    match goal with |- context [bun_serve ?o] => destruct (bun_serve o) as [t|address] end.
    + exists []. cbn [snd spawned add_log add_spawned].
      repeat split; [constructor|cbn; lia].
    + match goal with |- context [serve_requests pathnames ?w0] =>
        destruct (serve_requests_spawned pathnames w0) as (items & Hsp & Hall & Hlen)
      end.
      exists items. rewrite Hsp. cbn [spawned add_log add_spawned].
      rewrite <- app_assoc. repeat split; [exact Hall|exact Hlen|discriminate].
Qed.

(** * The configuration bundle: setupLLM *)

Lemma set_property_same (fields : list (string * Value)) (key : string) (v : Value) :
  own_property (Config.set_property fields key v) key = Some v.
Proof.
  induction fields as [|[k x] rest IH]; cbn [Config.set_property own_property].
  - rewrite String.eqb_refl. reflexivity.
  - destruct (String.eqb k key) eqn:Hk; cbn [own_property]; rewrite Hk;
      [reflexivity|exact IH].
Qed.

Lemma set_property_other (fields : list (string * Value)) (key other : string) (v : Value) :
  other <> key ->
  own_property (Config.set_property fields key v) other = own_property fields other.
Proof.
  intros Hne. induction fields as [|[k x] rest IH]; cbn [Config.set_property own_property].
  - destruct (String.eqb key other) eqn:Hk; [|reflexivity].
    apply String.eqb_eq in Hk. congruence.
  - destruct (String.eqb k key) eqn:Hk; cbn [own_property].
    + apply String.eqb_eq in Hk. subst k.
      destruct (String.eqb key other) eqn:Hko; [|reflexivity].
      apply String.eqb_eq in Hko. congruence.
    + rewrite IH. reflexivity.
Qed.

(** X12. [setupLLM] never throws, whatever the import, the error of the
    engine and the page are. When the lookup of the key throws, the error
    is logged and [settings.llm] is left as the lookup left it; when
    [settings.llm] cannot take the property, that error is logged
    instead, and no success is reported. *)
Theorem setupLLM_degrades
  (assignment_error : Thrown) (gateway : string -> Config.Cfg Value) (b : Config.Browser) :
  (forall t b', Config.setupLLM assignment_error gateway b <> (Throws t, b')) /\
  (forall t b1, gateway "openrouter-api-key" b = (Throws t, b1) ->
     Config.setupLLM assignment_error gateway b =
       (Normal tt,
        {| Config.settings_llm := Config.settings_llm b1;
           Config.browser_console :=
             Config.browser_console b1 ++ [ConsoleError "Failed to setup LLM:" t] |})) /\
  (forall v b1, gateway "openrouter-api-key" b = (Normal v, b1) ->
     Config.settings_llm b1 = None ->
     Config.setupLLM assignment_error gateway b =
       (Normal tt,
        {| Config.settings_llm := None;
           Config.browser_console :=
             Config.browser_console b1
               ++ [ConsoleError "Failed to setup LLM:" assignment_error] |})).
Proof.
  unfold Config.setupLLM, Config.try_catch, Config.assign_llm_custom.
  unfold Config.console_log, Config.console_error, mbind, Config.Cfg_bind.
  repeat apply conj.
  - intros t b'. destruct (gateway "openrouter-api-key" b) as [[v|t0|c] b1];
      [|discriminate|discriminate].
    destruct (Config.settings_llm b1); discriminate.
  - intros t b1 ->. reflexivity.
  - intros v b1 -> Hnone. rewrite Hnone. cbn [Config.settings_llm Config.browser_console].
    rewrite Hnone. reflexivity.
Qed.

(** X13. When the lookup returns a value, whatever it is (the empty
    string and [undefined] too), and [settings.llm] is an object,
    [setupLLM] sets its property [custom] to the service URL, that value
    as the key and the default model, leaves every other property of
    [settings.llm] as it was, and logs the success. *)
Theorem setupLLM_configures
  (assignment_error : Thrown) (gateway : string -> Config.Cfg Value)
  (b b1 : Config.Browser) (v : Value) (fields : list (string * Value)) :
  gateway "openrouter-api-key" b = (Normal v, b1) ->
  Config.settings_llm b1 = Some fields ->
  exists fields',
    Config.setupLLM assignment_error gateway b =
      (Normal tt,
       {| Config.settings_llm := Some fields';
          Config.browser_console :=
            Config.browser_console b1 ++ [ConsoleLog "LLM configured successfully"] |}) /\
    own_property fields' "custom" =
      Some (VObject
              [ ("serviceUrl", VString "https://api.openrouter.ai/api/v1/chat/completions");
                ("apiKey", v);
                ("model", VString "anthropic/claude-3.5-sonnet") ]) /\
    forall other, other <> "custom" -> own_property fields' other = own_property fields other.
Proof.
  intros Hg Hf. eexists. split; [|split].
  - unfold Config.setupLLM, Config.try_catch, Config.assign_llm_custom.
    unfold Config.console_log, mbind, Config.Cfg_bind.
    rewrite Hg, Hf. reflexivity.
  - apply set_property_same.
  - intros other Hne. apply set_property_other. exact Hne.
Qed.

End Properties.

(** * The properties on the concrete host *)

#[local] Existing Instance Example.numbers.
#[local] Existing Instance Example.host.

(** C1 as it was stated fails: the tool gives an item whose payload has
    neither a password nor a text, and the gateway returns the empty
    string instead of throwing; the handler answers 200. *)
Lemma getSecret_bare_item_succeeds :
  test_mode Example.live_world = false /\
  pass_cli (spawned Example.live_world) (PassCliItemGet "X") = inr Example.bare_item /\
  get_field_opt (get_field_opt (get_field Example.bare_item data) content) itemData
    = VObject [] /\
  get_field (VObject []) password = VUndefined /\
  get_field (VObject []) text = VUndefined /\
  getSecret "X" Example.live_world =
    (Normal (VString EmptyString), add_spawned (PassCliItemGet "X") Example.live_world) /\
  fst (getSecret "X" Example.live_world) <> Throws (SecretNotFound "X") /\
  fst (handleGetSecret getSecret (Some "X") Example.live_world) =
    Normal {| status := 200; headers := [];
              body := JsonText ("{" +:+ in_quotes "value" +:+ ":"
                                  +:+ in_quotes EmptyString +:+ "}") |}.
Proof. repeat split. discriminate. Qed.

Lemma getSecret_payload_without_fields_witness :
  (getSecret "nothing" Example.live_world =
     (Throws (SecretNotFound "nothing"),
      add_spawned (PassCliItemGet "nothing") Example.live_world) /\
   fst (handleGetSecret getSecret (Some "nothing") Example.live_world) =
     Normal {| status := 500; headers := [];
               body := JsonText ("{" +:+ in_quotes "error" +:+ ":"
                                   +:+ in_quotes "Secret 'nothing' not found in Proton Pass"
                                   +:+ "}") |}) /\
  (getSecret "X" Example.live_world =
     (Normal (VString EmptyString), add_spawned (PassCliItemGet "X") Example.live_world) /\
   fst (handleGetSecret getSecret (Some "X") Example.live_world) =
     Normal {| status := 200; headers := [];
               body := JsonText ("{" +:+ in_quotes "value" +:+ ":"
                                   +:+ in_quotes EmptyString +:+ "}") |}).
Proof.
  split.
  - destruct (@getSecret_payload_without_fields Example.numbers Example.host
                "nothing" Example.live_world Example.no_item
                eq_refl eq_refl eq_refl eq_refl) as [H _].
    destruct (H eq_refl) as (Hget & _ & Hhandle).
    split; [exact Hget|]. rewrite Hhandle. reflexivity.
  - destruct (@getSecret_payload_without_fields Example.numbers Example.host
                "X" Example.live_world Example.bare_item
                eq_refl eq_refl eq_refl eq_refl) as [_ H].
    destruct (H eq_refl eq_refl eq_refl) as (Hget & Hhandle).
    split; [exact Hget|]. rewrite Hhandle. reflexivity.
Defined.

(** C2 as it was stated fails: the table has a second entry. *)
Lemma getSecret_test_secret :
  test_mode Example.test_world = true /\
  "test-secret" <> "openrouter-api-key" /\
  getSecret "test-secret" Example.test_world =
    (Normal (VString "test-value"), Example.test_world) /\
  VString "test-value" <> VString EmptyString.
Proof. repeat split; discriminate. Qed.

Lemma getSecret_test_mode_table_witness :
  getSecret "openrouter-api-key" Example.test_world =
    (Normal (VString "test-api-key-12345"), Example.test_world) /\
  getSecret "unknown-key" Example.test_world =
    (Normal (VString EmptyString), Example.test_world).
Proof.
  split.
  - apply (@getSecret_test_mode_table Example.numbers Example.host
             "openrouter-api-key" Example.test_world eq_refl).
    + intros H. exact (bool_decide_pack _ H).
    + discriminate.
  - apply (@getSecret_test_mode_table Example.numbers Example.host
             "unknown-key" Example.test_world eq_refl).
    + intros H. exact (bool_decide_pack _ H).
    + discriminate.
Defined.

Lemma handleGetSecret_outcomes_witness :
  handleGetSecret getSecret (Some "github") Example.live_world =
    (Normal {| status := 200; headers := [];
               body := JsonText ("{" +:+ in_quotes "value" +:+ ":"
                                   +:+ in_quotes "hunter2" +:+ "}") |},
     add_spawned (PassCliItemGet "github") Example.live_world) /\
  fst (handleGetSecret getSecret (Some "gone") Example.live_world) =
    Normal {| status := 500; headers := [];
              body := JsonText ("{" +:+ in_quotes "error" +:+ ":"
                                  +:+ in_quotes "Failed with exit code 1" +:+ "}") |}.
Proof.
  split.
  - destruct (@handleGetSecret_outcomes Example.numbers Example.host
                getSecret "github" Example.live_world eq_refl) as (_ & H & _).
    exact (H "hunter2" _ eq_refl).
  - destruct (@handleGetSecret_outcomes Example.numbers Example.host
                getSecret "gone" Example.live_world eq_refl) as (_ & _ & H & _).
    rewrite (H Example.shell_error _ eq_refl). reflexivity.
Defined.

Lemma fetch_secret_route_witness :
  fetch "bundle.js" "/api/secrets/openrouter-api-key" Example.test_world =
    handleGetSecret getSecret (Some "openrouter-api-key") Example.test_world /\
  fetch "bundle.js" "/api/secrets/a/b" Example.test_world =
    handleGetSecret getSecret (Some "b") Example.test_world /\
  fst (fetch "bundle.js" "/api/secrets/" Example.test_world) =
    Normal {| status := 400; headers := [];
              body := JsonText ("{" +:+ in_quotes "error" +:+ ":"
                                  +:+ in_quotes "Secret name is required" +:+ "}") |}.
Proof.
  repeat apply conj.
  - destruct (@fetch_secret_route Example.numbers Example.host
                "bundle.js" "/api/secrets/openrouter-api-key" Example.test_world eq_refl)
      as [_ H].
    exact (proj1 (proj2 (H "/api/secrets" "openrouter-api-key" eq_refl eq_refl))).
  - destruct (@fetch_secret_route Example.numbers Example.host
                "bundle.js" "/api/secrets/a/b" Example.test_world eq_refl) as [_ H].
    exact (proj1 (proj2 (H "/api/secrets/a" "b" eq_refl eq_refl))).
  - destruct (@fetch_secret_route Example.numbers Example.host
                "bundle.js" "/api/secrets/" Example.test_world eq_refl) as [_ H].
    rewrite (proj2 (proj2 (H "/api/secrets" EmptyString eq_refl eq_refl)) eq_refl).
    reflexivity.
Defined.

Lemma fetch_not_found_witness :
  fetch "bundle.js" "/nonexistent" Example.test_world =
    (Normal {| status := 404; headers := []; body := PlainText "Not Found" |},
     Example.test_world).
Proof.
  apply (@fetch_not_found Example.numbers Example.host).
  - discriminate.
  - reflexivity.
Defined.

Lemma getSecret_test_mode_constructor_witness :
  getSecret "constructor" Example.test_world =
    (Normal (VFunction "constructor"), Example.test_world) /\
  fst (fetch "bundle.js" "/api/secrets/constructor" Example.test_world) =
    Normal {| status := 200; headers := []; body := JsonText "{}" |}.
Proof.
  destruct (@getSecret_test_mode_constructor Example.numbers Example.host
              Example.test_world eq_refl) as (_ & Hget & _ & Hhandle).
  split; [exact Hget|].
  change (fetch "bundle.js" "/api/secrets/constructor" Example.test_world)
    with (handleGetSecret getSecret (Some "constructor") Example.test_world).
  rewrite Hhandle. reflexivity.
Defined.

Lemma secret_request_idempotent_witness :
  let first := fetch "bundle.js" "/api/secrets/unknown-key" Example.test_world in
  let second := fetch "bundle.js" "/api/secrets/unknown-key" (snd first) in
  fst first =
    Normal {| status := 200; headers := [];
              body := JsonText ("{" +:+ in_quotes "value" +:+ ":"
                                  +:+ in_quotes EmptyString +:+ "}") |} /\
  fst second = fst first /\ snd second = Example.test_world.
Proof.
  destruct (@secret_request_idempotent Example.numbers Example.host
              (Some "unknown-key") "bundle.js" "/api/secrets/unknown-key"
              Example.test_world eq_refl) as [_ (_ & _ & Hsame & Hworld)].
  split; [reflexivity|]. split; [exact Hsame|exact Hworld].
Defined.

Lemma startup_authentication_witness :
  startServer Example.anonymous_world =
    (Exits 1,
     add_log (ConsoleError "Failed to authenticate with Proton Pass:" Example.shell_error)
       (add_spawned (PassCliLogin None) Example.anonymous_world)) /\
  run_process ["/api/secrets/openrouter-api-key"; "/config.js"] Example.anonymous_world =
    ([], add_log (ConsoleError "Failed to authenticate with Proton Pass:" Example.shell_error)
           (add_spawned (PassCliLogin None) Example.anonymous_world)) /\
  authenticateProtonPass Example.live_world =
    (Normal tt,
     add_log (ConsoleLog "Authenticated with Proton Pass")
       (add_spawned (PassCliLogin (Some "me@example.org")) Example.live_world)) /\
  authenticateProtonPass Example.test_world =
    (Normal tt,
     add_log (ConsoleLog "Test mode: Skipping Proton Pass authentication") Example.test_world).
Proof.
  repeat apply conj.
  - destruct (@startup_authentication Example.numbers Example.host Example.anonymous_world)
      as (_ & _ & _ & _ & H).
    exact (proj1 (proj2 (H eq_refl Example.shell_error eq_refl))).
  - destruct (@startup_authentication Example.numbers Example.host Example.anonymous_world)
      as (_ & _ & _ & _ & H).
    exact (proj2 (proj2 (proj2 (proj2 (H eq_refl Example.shell_error eq_refl)))) _).
  - destruct (@startup_authentication Example.numbers Example.host Example.live_world)
      as (_ & _ & _ & H & _).
    exact (H eq_refl VUndefined eq_refl).
  - destruct (@startup_authentication Example.numbers Example.host Example.test_world)
      as (_ & _ & H & _).
    exact (H eq_refl).
Defined.

Lemma handleGetSecret_error_body_witness :
  fst (handleGetSecret Example.throwing_gateway (Some "X") Example.live_world) =
    Normal {| status := 500; headers := [];
              body := JsonText ("{" +:+ in_quotes "error" +:+ ":"
                                  +:+ in_quotes "Unknown error" +:+ "}") |} /\
  fst (handleGetSecret getSecret (Some "gone") Example.live_world) =
    Normal {| status := 500; headers := [];
              body := JsonText ("{" +:+ in_quotes "error" +:+ ":"
                                  +:+ in_quotes "Failed with exit code 1" +:+ "}") |}.
Proof.
  split.
  - exact (proj1 (@handleGetSecret_error_body Example.numbers
                    Example.throwing_gateway "X" Example.live_world Example.live_world
                    (ThrowOther (VString "X")) eq_refl eq_refl)).
  - exact (proj1 (@handleGetSecret_error_body Example.numbers
                    getSecret "gone" Example.live_world _
                    Example.shell_error eq_refl eq_refl)).
Defined.

(** The scenarios of the integration tests, on a process started in test
    mode: the known key, an unknown key, the empty name, an unknown path
    and the bundle. *)
Lemma run_process_test_world :
  fst (run_process
         [ "/api/secrets/openrouter-api-key"; "/api/secrets/unknown-key";
           "/api/secrets/"; "/nonexistent"; "/config.js" ]
         Example.test_world) =
    [ {| status := 200; headers := [];
         body := JsonText ("{" +:+ in_quotes "value" +:+ ":"
                             +:+ in_quotes "test-api-key-12345" +:+ "}") |};
      {| status := 200; headers := [];
         body := JsonText ("{" +:+ in_quotes "value" +:+ ":"
                             +:+ in_quotes EmptyString +:+ "}") |};
      {| status := 400; headers := [];
         body := JsonText ("{" +:+ in_quotes "error" +:+ ":"
                             +:+ in_quotes "Secret name is required" +:+ "}") |};
      {| status := 404; headers := []; body := PlainText "Not Found" |};
      {| status := 200; headers := [("Content-Type", "application/javascript")];
         body := FileBody "/srv/packages/server/src/../../config/dist/bundle.js" |} ].
Proof. vm_compute. reflexivity. Qed.

(** ** The further properties on the concrete hosts *)

Lemma getSecret_password_first_witness :
  fst (getSecret "github" Example.live_world) = Normal (VString "hunter2") /\
  fst (@getSecret Example.numbers Container.host "note" Example.live_world) =
    Normal (VString "remember the milk").
Proof.
  split.
  - destruct (@getSecret_password_first Example.numbers Example.host
                "github" Example.live_world Example.login_item
                [("username", VString "me"); ("password", VString "hunter2")]
                eq_refl eq_refl eq_refl eq_refl) as [H _].
    exact (H (VString "hunter2") eq_refl eq_refl).
  - destruct (@getSecret_password_first Example.numbers Container.host
                "note" Example.live_world Container.note_item
                [("password", VString EmptyString); ("text", VString "remember the milk")]
                eq_refl eq_refl eq_refl eq_refl) as [_ H].
    apply (H (VString "remember the milk")); [|reflexivity|reflexivity].
    right. exists (VString EmptyString). split; reflexivity.
Defined.

Lemma getSecret_malformed_output_witness :
  fst (@getSecret Example.numbers Container.host "null" Example.live_world) =
    Throws (ThrowError {| err_name := "TypeError";
                          err_message := "null is not an object (evaluating 'result.data')" |}) /\
  fst (@getSecret Example.numbers Container.host "plain" Example.live_world) =
    Throws (SecretNotFound "plain").
Proof.
  split.
  - destruct (@getSecret_malformed_output Example.numbers Container.host
                "null" Example.live_world VNull eq_refl eq_refl eq_refl) as [H _].
    rewrite (proj1 (H eq_refl)). reflexivity.
  - destruct (@getSecret_malformed_output Example.numbers Container.host
                "plain" Example.live_world (VString "no such item")
                eq_refl eq_refl eq_refl) as [_ H].
    rewrite (H eq_refl (or_introl eq_refl)). reflexivity.
Defined.

Lemma getSecret_value_present_witness :
  exists t,
    JSON_stringify (VString "hunter2") = Some t /\
    Response_json [("value", VString "hunter2")] 200 =
      {| status := 200; headers := [];
         body := JsonText ("{" +:+ in_quotes "value" +:+ ":" +:+ t +:+ "}") |}.
Proof.
  exact (proj2 (proj2 (@getSecret_value_present Example.numbers Example.host
                         "github" Example.live_world _ Example.login_item (VString "hunter2")
                         eq_refl eq_refl eq_refl eq_refl))).
Defined.

Lemma getSecret_no_cache_witness :
  fst (@getSecret Example.numbers Rotation.host "api" Example.live_world) =
    Normal (VString "old") /\
  fst (@getSecret Example.numbers Rotation.host "api"
         (snd (@getSecret Example.numbers Rotation.host "api" Example.live_world))) =
    Normal (VString "new") /\
  spawned (snd (@getSecret Example.numbers Rotation.host "api"
                  (snd (@getSecret Example.numbers Rotation.host "api" Example.live_world)))) =
    [PassCliItemGet "api"; PassCliItemGet "api"] /\
  fst (getSecret "gone" (snd (getSecret "gone" Example.live_world))) =
    Throws Example.shell_error.
Proof.
  destruct (@getSecret_no_cache Example.numbers Rotation.host "api" Example.live_world eq_refl)
    as (_ & H2 & _ & _ & _ & H).
  destruct (@getSecret_no_cache Example.numbers Example.host "gone" Example.live_world eq_refl)
    as (_ & _ & _ & _ & _ & H').
  split; [reflexivity|]. split; [rewrite H; reflexivity|]. split; [exact H2|].
  rewrite H'. reflexivity.
Defined.


Lemma fetch_live_runs_tool_witness :
  spawned (snd (fetch "bundle.js" "/api/secrets/github" Example.live_world)) =
    [PassCliItemGet "github"].
Proof.
  exact (proj1 (@fetch_live_runs_tool Example.numbers Example.host
                  "bundle.js" "/api/secrets" "github" Example.live_world
                  eq_refl eq_refl eq_refl eq_refl)).
Defined.

Lemma serve_requests_answers_all_witness :
  length (fst (@serve_requests Example.numbers Container.host
                 ["/api/secrets/note"; "/api/secrets/null"; "/config.js"; "/"]
                 Container.serving_world)) = 4%nat.
Proof.
  exact (proj1 (@serve_requests_answers_all Example.numbers Container.host
                  ["/api/secrets/note"; "/api/secrets/null"; "/config.js"; "/"]
                  Container.serving_world _ eq_refl)).
Defined.

Lemma run_process_test_mode_witness :
  spawned (snd (run_process ["/api/secrets/test-secret"; "/api/secrets/constructor"]
                  Example.test_world)) = [] /\
  length (fst (run_process ["/api/secrets/test-secret"; "/api/secrets/constructor"]
                 Example.test_world)) = 2%nat.
Proof.
  destruct (@run_process_test_mode Example.numbers Example.host
              ["/api/secrets/test-secret"; "/api/secrets/constructor"]
              Example.test_world eq_refl) as [Hs Hl].
  split; [exact Hs|]. exact (Hl _ eq_refl).
Defined.

Lemma startServer_defaults_witness :
  exists w2,
    @startServer Example.numbers Container.host Example.live_world = (Normal tt, w2) /\
    listening w2 = Some {| serve_port := 16080; serve_hostname := "127.0.0.1";
                           serve_bundle := "/app/static/config.js" |}.
Proof.
  destruct (@startServer_defaults Example.numbers Container.host Example.live_world _
              eq_refl (or_introl eq_refl) (or_introl eq_refl)) as (_ & H & _).
  destruct (H "127.0.0.1:16080" eq_refl) as (w2 & Hstart & Hl & _).
  exists w2. split; [exact Hstart|exact Hl].
Defined.

Lemma test_mode_only_true_witness :
  spawned (snd (authenticateProtonPass Container.shouting_world)) = [PassCliLogin None] /\
  spawned (snd (getSecret "openrouter-api-key" Container.shouting_world)) =
    [PassCliItemGet "openrouter-api-key"].
Proof.
  apply (@test_mode_only_true Example.numbers Example.host
           "openrouter-api-key" Container.shouting_world).
  discriminate.
Defined.

Lemma fetch_agrees_with_earlier_witness :
  fetch "bundle.js" "/api/secrets/unknown-key" Example.test_world =
    fetch_static "/api/secrets/unknown-key" Example.test_world /\
  @fetch Example.numbers Container.host (@getConfigPath Example.numbers Container.host)
     "/config.js" Example.test_world =
    @fetch_static Example.numbers Container.host "/config.js" Example.test_world.
Proof.
  split.
  - apply (@fetch_agrees_with_earlier Example.numbers Example.host). discriminate.
  - apply (@fetch_agrees_with_earlier Example.numbers Container.host "bundle.js"). reflexivity.
Defined.

Lemma setupLLM_degrades_witness :
  Config.setupLLM Example.shell_error Page.failing_lookup Page.page =
    (Normal tt,
     {| Config.settings_llm := Some [("provider", VString "custom")];
        Config.browser_console := [ConsoleError "Failed to setup LLM:" Example.shell_error] |}).
Proof.
  exact (proj1 (proj2 (@setupLLM_degrades Example.numbers Example.shell_error
                         Page.failing_lookup Page.page))
           Example.shell_error Page.page eq_refl).
Defined.

Lemma setupLLM_configures_witness :
  exists fields',
    fst (Config.setupLLM Example.shell_error Page.empty_lookup Page.page) = Normal tt /\
    Config.settings_llm (snd (Config.setupLLM Example.shell_error Page.empty_lookup Page.page))
      = Some fields' /\
    own_property fields' "custom" =
      Some (VObject
              [ ("serviceUrl", VString "https://api.openrouter.ai/api/v1/chat/completions");
                ("apiKey", VString EmptyString);
                ("model", VString "anthropic/claude-3.5-sonnet") ]) /\
    own_property fields' "provider" = Some (VString "custom").
Proof.
  destruct (@setupLLM_configures Example.numbers Example.shell_error Page.empty_lookup
              Page.page Page.page (VString EmptyString) [("provider", VString "custom")]
              eq_refl eq_refl) as (fields' & Hrun & Hcustom & Hother).
  exists fields'. rewrite Hrun. cbn [fst snd Config.settings_llm].
  split; [reflexivity|]. split; [reflexivity|]. split; [exact Hcustom|].
  rewrite Hother by discriminate. reflexivity.
Defined.

Lemma fetch_status_witness :
  let r := {| status := 404; headers := []; body := PlainText "Not Found" |} in
  (status r = 404 <->
     "/api/secrets" <> "/config.js" /\ Str.startsWith "/api/secrets" "/api/secrets/" = false) /\
  (status r = 400 <->
     Str.startsWith "/api/secrets" "/api/secrets/" = true /\
     exists pre, "/api/secrets" = pre +:+ "/") /\
  (exists n,
     Str.pop (Str.split Str.slash "/api/secrets") = Some n /\
     (Str.startsWith "/api/secrets" "/api/secrets/" = true ->
      fetch "bundle.js" "/api/secrets" Example.test_world =
        handleGetSecret getSecret (Some n) Example.test_world)).
Proof.
  exact (@fetch_status Example.numbers Example.host "bundle.js" "/api/secrets"
           Example.test_world Example.test_world _ eq_refl).
Defined.

Lemma run_process_login_first_witness :
  exists items,
    spawned (snd (run_process ["/api/secrets/github"; "/nonexistent"] Example.live_world)) =
      PassCliLogin (Some "me@example.org") :: items /\
    (length items <= 2)%nat.
Proof.
  destruct (@run_process_login_first Example.numbers Example.host
              ["/api/secrets/github"; "/nonexistent"] Example.live_world eq_refl)
    as (items & Hsp & _ & Hlen & _).
  exists items. split; [exact Hsp|exact Hlen].
Defined.

Lemma getSecret_failures_witness :
  test_mode Example.live_world = false /\
  (pass_cli (spawned Example.live_world) (PassCliItemGet "gone") = inl Example.shell_error \/
   exists result,
     pass_cli (spawned Example.live_world) (PassCliItemGet "gone") = inr result /\
     ((nullish result = true /\
       Example.shell_error =
         ThrowError {| err_name := "TypeError";
                       err_message := nullish_read_message result data |}) \/
      (nullish result = false /\
       truthy (get_field_opt (get_field_opt (get_field result data) content) itemData) = false /\
       Example.shell_error = SecretNotFound "gone"))).
Proof.
  exact (@getSecret_failures Example.numbers Example.host "gone" Example.live_world _
           Example.shell_error eq_refl).
Defined.
